(** * Asset management backend: models, serializers, views and middleware

    A shallow embedding of the validation and bookkeeping code of
    [assets/models.py], [assets/serializers.py], [assets/views.py],
    [assets/utils.py] and [core/middleware.py].

    Conventions of the embedding
    - a Python [Decimal] is modelled by its numeric value, a rational [Q];
      arithmetic is exact, comparisons are those of the rationals, and
      truthiness ([if d:] / [not d]) is "is not zero".  NaN and the
      infinities are not modelled, nor is the 28 digit context precision;
    - an aware [datetime] is an instant, an integer number of microseconds;
    - [None] is [None] of an [option]; a nullable column is an [option];
    - a raised exception is the [Raise] branch of [result]; the exception
      carries its class and the module that defines the class;
    - a database table is a finite map from primary key to row (stdpp's
      [gmap]) where rows are looked up by key, and a list of rows where the
      code aggregates over a queryset.  A row holds the attribute values of
      the instance that was saved: what the database does to a value when
      it stores it (rounding to the decimal places of the column) is not
      part of this code and is not modelled;
    - parsing of a request body by the framework (required keys, choices,
      digits) has happened: request records hold parsed values. *)

From Stdlib Require Import ZArith QArith Lqa Lia List String Bool.
From stdpp Require Import base option list gmap strings pretty.
Import ListNotations.

Set Warnings "-register-all".

Local Open Scope Z_scope.
Local Open Scope string_scope.

(** ** Python values shared by all modules *)

Module Py.

(** [decimal.Decimal], by value. *)
Definition Decimal : Type := Q.

Definition dec_lt (a b : Decimal) : bool := negb (Qle_bool b a).
Definition dec_le (a b : Decimal) : bool := Qle_bool a b.
Definition dec_gt (a b : Decimal) : bool := dec_lt b a.
Definition dec_is_zero (a : Decimal) : bool := Qeq_bool a 0.

(** Truthiness of an optional Decimal attribute: [None] and zero are
    falsy, every other value is truthy. *)
Definition truthy (d : option Decimal) : bool :=
  match d with
  | None => false
  | Some v => negb (dec_is_zero v)
  end.

(** [x or Decimal('0')] for an aggregate that is [None] on no rows. *)
Definition or_zero (d : option Decimal) : Decimal :=
  match d with
  | None => 0%Q
  | Some v => if dec_is_zero v then 0%Q else v
  end.

(** Truthiness of a string: the empty string is falsy. *)
Definition str_truthy (s : string) : bool :=
  match s with
  | EmptyString => false
  | String _ _ => true
  end.

(** [needle in hay] on strings. *)
Definition str_in (needle hay : string) : bool :=
  match String.index 0 needle hay with
  | Some _ => true
  | None => false
  end.

(** Exception classes that occur in the code, with the module that
    defines each of them ([type(e).__module__]). *)
Inductive exn_class : Type :=
| ValueError
| TypeError
| NameError
| DjangoValidationError
| DatabaseError
| IntegrityError
| Http404
| DRFValidationError
| DRFPermissionDenied
| DRFNotAuthenticated
| OtherException (module_name : string).

Definition module_of (c : exn_class) : string :=
  match c with
  | ValueError | TypeError | NameError => "builtins"
  | DjangoValidationError => "django.core.exceptions"
  | DatabaseError | IntegrityError => "django.db.utils"
  | Http404 => "django.http.response"
  | DRFValidationError | DRFPermissionDenied | DRFNotAuthenticated =>
      "rest_framework.exceptions"
  | OtherException m => m
  end.

Record exn : Type := mk_exn { exn_cls : exn_class; exn_str : string }.

(** [isinstance(e, ValueError)], as [except ValueError] tests it. *)
Definition is_value_error (e : exn) : bool :=
  match exn_cls e with
  | ValueError => true
  | _ => false
  end.

Inductive result (A : Type) : Type :=
| Ok (a : A)
| Raise (e : exn).
Arguments Ok {A} a.
Arguments Raise {A} e.

Definition bind {A B} (r : result A) (k : A -> result B) : result B :=
  match r with
  | Ok a => k a
  | Raise e => Raise e
  end.


(** [raise ValidationError(msg)] of [django.core.exceptions]. *)
Definition model_error {A} (msg : string) : result A :=
  Raise (mk_exn DjangoValidationError msg).

(** [raise serializers.ValidationError(msg)] of Django REST framework. *)
Definition serializer_error {A} (msg : string) : result A :=
  Raise (mk_exn DRFValidationError msg).

(** Primary keys are UUIDs, 128 bit numbers. *)
Abbreviation uuid := N.

(** JSON values of response bodies. *)
Inductive json : Type :=
| JNull
| JBool (b : bool)
| JInt (z : Z)
| JDec (d : Decimal)
| JStr (s : string)
| JList (items : list json)
| JObj (fields : list (string * json)).

(** A REST framework [Response] / Django [JsonResponse]. *)
Record Response : Type := mk_response { status_code : Z; data : json }.

Definition HTTP_200_OK : Z := 200.
Definition HTTP_201_CREATED : Z := 201.
Definition HTTP_204_NO_CONTENT : Z := 204.
Definition HTTP_400_BAD_REQUEST : Z := 400.
Definition HTTP_404_NOT_FOUND : Z := 404.
Definition HTTP_500_INTERNAL_SERVER_ERROR : Z := 500.

(** Log records written through [logger.info] / [logger.error]. *)
Inductive log_level : Type := INFO | ERROR.
Definition log_record : Type := (log_level * string)%type.

End Py.
Import Py.

(** ** Asset categories ([AssetCategory], [AssetCategorySerializer],
    [AssetCategoryViewSet]) *)

Module Category.

(** A row of the category table.  [parent] is the foreign key column, the
    primary key of the parent row. *)
Record AssetCategory : Type := mk_category {
  id : uuid;
  created_at : Z;
  updated_at : Z;
  is_active : bool;
  name : string;
  description : string;
  parent : option uuid;
  icon : string;
  color : string
}.

(** [other == self] on model instances: the same primary key; [None] is
    equal to no instance. *)
Definition same_instance (other : option uuid) (self : AssetCategory) : bool :=
  match other with
  | Some pk => N.eqb pk (id self)
  | None => false
  end.

(** [AssetCategory.clean] *)
Definition clean (self : AssetCategory) : result unit :=
  if same_instance (parent self) self
  then model_error "Category cannot be its own parent"
  else Ok tt.

(** [AssetCategorySerializer.validate_parent]; [instance] is
    [self.instance], [None] while creating. *)
Definition validate_parent (instance : option AssetCategory)
    (value : option uuid) : result (option uuid) :=
  match value, instance with
  | Some _, Some inst =>
      if same_instance value inst
      then serializer_error "Category cannot be its own parent"
      else Ok value
  | _, _ => Ok value
  end.

(** The writable fields of a request body; [None] is an absent key.  For
    [parent], [Some None] is an explicit [null]. *)
Record CategoryData : Type := mk_category_data {
  d_name : option string;
  d_description : option string;
  d_parent : option (option uuid);
  d_icon : option string;
  d_color : option string;
  d_is_active : option bool
}.

(** The unique constraint on [name]: another row already has the name. *)
Definition name_taken (db : gmap N AssetCategory)
    (instance : option AssetCategory) (n : string) : bool :=
  bool_decide (map_Exists (fun pk row =>
    name row = n /\ (option_map id instance) <> Some pk) db).

(** Field validation of the [parent] key: the related row must exist, then
    [validate_parent] runs on the value. *)
Definition validate_parent_field (db : gmap N AssetCategory)
    (instance : option AssetCategory) (raw : option uuid)
    : result (option uuid) :=
  match raw with
  | Some pk =>
      match db !! pk with
      | Some _ => validate_parent instance (Some pk)
      | None => serializer_error "Invalid pk - object does not exist."
      end
  | None => validate_parent instance None
  end.

(** [serializer.is_valid(raise_exception=True)]: the checks declared for
    [name] and [parent]. *)
Definition is_valid (db : gmap N AssetCategory)
    (instance : option AssetCategory) (d : CategoryData)
    : result CategoryData :=
  bind (match d_name d, instance with
        | None, None => serializer_error "This field is required."
        | None, Some _ => Ok tt
        | Some n, _ =>
            if name_taken db instance n
            then serializer_error
                   "asset category with this name already exists."
            else Ok tt
        end) (fun _ =>
  bind (match d_parent d with
        | None => Ok None
        | Some raw =>
            bind (validate_parent_field db instance raw)
                 (fun v => Ok (Some v))
        end) (fun p =>
  Ok (mk_category_data (d_name d) (d_description d) p (d_icon d)
        (d_color d) (d_is_active d)))).

(** [ModelSerializer.create]: a new row with the model defaults. *)
Definition serializer_create (new_id : uuid) (now : Z) (v : CategoryData)
    : AssetCategory :=
  {| id := new_id;
     created_at := now;
     updated_at := now;
     is_active := default true (d_is_active v);
     name := default "" (d_name v);
     description := default "" (d_description v);
     parent := default None (d_parent v);
     icon := default "" (d_icon v);
     color := default "#007bff" (d_color v) |}.

(** [ModelSerializer.update]: the given attributes are set, the others are
    kept. *)
Definition serializer_update (inst : AssetCategory) (now : Z)
    (v : CategoryData) : AssetCategory :=
  {| id := id inst;
     created_at := created_at inst;
     updated_at := now;
     is_active := default (is_active inst) (d_is_active v);
     name := default (name inst) (d_name v);
     description := default (description inst) (d_description v);
     parent := default (parent inst) (d_parent v);
     icon := default (icon inst) (d_icon v);
     color := default (color inst) (d_color v) |}.

(** [get_object] on the queryset [filter(is_active=True)]. *)
Definition get_object (db : gmap N AssetCategory) (pk : uuid)
    : option AssetCategory :=
  match db !! pk with
  | Some row => if is_active row then Some row else None
  | None => None
  end.

(** POST: the status of the response and the table afterwards.  A primary
    key that is already taken makes the INSERT fail. *)
Definition create_view (db : gmap N AssetCategory) (new_id : uuid) (now : Z)
    (d : CategoryData) : Z * gmap N AssetCategory :=
  match is_valid db None d with
  | Raise _ => (HTTP_400_BAD_REQUEST, db)
  | Ok v =>
      match db !! new_id with
      | Some _ => (HTTP_500_INTERNAL_SERVER_ERROR, db)
      | None =>
          (HTTP_201_CREATED, <[new_id := serializer_create new_id now v]> db)
      end
  end.

(** PUT / PATCH *)
Definition update_view (db : gmap N AssetCategory) (pk : uuid) (now : Z)
    (d : CategoryData) : Z * gmap N AssetCategory :=
  match get_object db pk with
  | None => (HTTP_404_NOT_FOUND, db)
  | Some inst =>
      match is_valid db (Some inst) d with
      | Raise _ => (HTTP_400_BAD_REQUEST, db)
      | Ok v => (HTTP_200_OK, <[pk := serializer_update inst now v]> db)
      end
  end.

(** [on_delete=CASCADE] on [parent]: the rows deleted together with the
    rows [ids]. *)
Definition child_of (ids : gset N) (row : AssetCategory) : bool :=
  match parent row with
  | Some p => bool_decide (p ∈ ids)
  | None => false
  end.

Definition children (db : gmap N AssetCategory) (ids : gset N) : gset N :=
  dom (filter (fun kv => child_of ids kv.2 = true) db).

Fixpoint collect (fuel : nat) (db : gmap N AssetCategory) (ids : gset N)
    : gset N :=
  match fuel with
  | O => ids
  | S fuel' => collect fuel' db (ids ∪ children db ids)
  end.

(** DELETE *)
Definition destroy_view (db : gmap N AssetCategory) (pk : uuid)
    : Z * gmap N AssetCategory :=
  match get_object db pk with
  | None => (HTTP_404_NOT_FOUND, db)
  | Some _ =>
      (HTTP_204_NO_CONTENT,
       filter (fun kv => kv.1 ∉ collect (size db) db {[pk]}) db)
  end.

(** One request to the category endpoints. *)
Inductive api_step (db : gmap N AssetCategory)
    : gmap N AssetCategory -> Prop :=
| step_create new_id now d :
    api_step db (create_view db new_id now d).2
| step_update pk now d :
    api_step db (update_view db pk now d).2
| step_destroy pk :
    api_step db (destroy_view db pk).2.

(** The tables the endpoints can produce from an empty table. *)
Inductive reachable : gmap N AssetCategory -> Prop :=
| reach_empty : reachable ∅
| reach_step db db' : reachable db -> api_step db db' -> reachable db'.

(** Rows are stored under their own key and no row is its own parent. *)
Definition no_self_parent (db : gmap N AssetCategory) : Prop :=
  forall pk row, db !! pk = Some row -> id row = pk /\ parent row <> Some pk.

End Category.

(** ** Assets ([Asset]) *)

Module Assets.

Inductive AssetType : Type :=
| STOCK | BOND | CRYPTO | REAL_ESTATE | COMMODITY | CASH | ETF
| MUTUAL_FUND | DERIVATIVE | OTHER.

Inductive AssetStatus : Type :=
| ACTIVE | INACTIVE | PENDING | SUSPENDED | DELISTED | SOLD.

Inductive RiskLevel : Type := LOW | MEDIUM | HIGH | VERY_HIGH.

(** An [Asset] instance, and a row of the asset table. *)
Record Asset : Type := mk_asset {
  id : uuid;
  created_at : Z;
  updated_at : Z;
  is_active : bool;
  name : string;
  symbol : string;
  asset_type : AssetType;
  category : option uuid;
  description : string;
  company_name : string;
  website_url : string;
  current_price : Decimal;
  currency : string;
  market_cap : option Decimal;
  risk_level : RiskLevel;
  beta : option Decimal;
  dividend_yield : option Decimal;
  status : AssetStatus;
  exchange : string;
  isin : option string;
  price_last_updated : option Z;
  day_high : option Decimal;
  day_low : option Decimal
}.

(** Attribute assignments [self.f = v] for the four price attributes. *)
Definition set_current_price (v : Decimal) (a : Asset) : Asset :=
  mk_asset (id a) (created_at a) (updated_at a) (is_active a) (name a)
    (symbol a) (asset_type a) (category a) (description a) (company_name a)
    (website_url a) v (currency a) (market_cap a) (risk_level a) (beta a)
    (dividend_yield a) (status a) (exchange a) (isin a)
    (price_last_updated a) (day_high a) (day_low a).

Definition set_price_last_updated (v : option Z) (a : Asset) : Asset :=
  mk_asset (id a) (created_at a) (updated_at a) (is_active a) (name a)
    (symbol a) (asset_type a) (category a) (description a) (company_name a)
    (website_url a) (current_price a) (currency a) (market_cap a)
    (risk_level a) (beta a) (dividend_yield a) (status a) (exchange a)
    (isin a) v (day_high a) (day_low a).

Definition set_day_high (v : option Decimal) (a : Asset) : Asset :=
  mk_asset (id a) (created_at a) (updated_at a) (is_active a) (name a)
    (symbol a) (asset_type a) (category a) (description a) (company_name a)
    (website_url a) (current_price a) (currency a) (market_cap a)
    (risk_level a) (beta a) (dividend_yield a) (status a) (exchange a)
    (isin a) (price_last_updated a) v (day_low a).

Definition set_day_low (v : option Decimal) (a : Asset) : Asset :=
  mk_asset (id a) (created_at a) (updated_at a) (is_active a) (name a)
    (symbol a) (asset_type a) (category a) (description a) (company_name a)
    (website_url a) (current_price a) (currency a) (market_cap a)
    (risk_level a) (beta a) (dividend_yield a) (status a) (exchange a)
    (isin a) (price_last_updated a) (day_high a) v.

(** [a < b] on two attributes that the guard has found truthy; the
    comparison is never reached with [None]. *)
Definition attr_lt (a b : option Decimal) : bool :=
  match a, b with
  | Some x, Some y => dec_lt x y
  | _, _ => false
  end.

(** Truthiness of the optional [isin] string. *)
Definition isin_truthy (s : option string) : bool :=
  match s with
  | Some v => str_truthy v
  | None => false
  end.

Definition isin_len (s : option string) : nat :=
  match s with
  | Some v => String.length v
  | None => O
  end.

(** [Asset.clean] *)
Definition clean (self : Asset) : result unit :=
  if truthy (day_high self) && truthy (day_low self)
     && attr_lt (day_high self) (day_low self)
  then model_error "Day high cannot be less than day low"
  else
    if isin_truthy (isin self) && negb (Nat.eqb (isin_len (isin self)) 12)
    then model_error "ISIN must be exactly 12 characters"
    else Ok tt.

(** Columns that [update_fields] can name. *)
Inductive column : Type :=
| col_current_price
| col_price_last_updated
| col_day_high
| col_day_low.

(** The value of column [c] of [self] written into [row]. *)
Definition write_column (self : Asset) (row : Asset) (c : column) : Asset :=
  match c with
  | col_current_price => set_current_price (current_price self) row
  | col_price_last_updated =>
      set_price_last_updated (price_last_updated self) row
  | col_day_high => set_day_high (day_high self) row
  | col_day_low => set_day_low (day_low self) row
  end.

(** [self.save(update_fields=...)]: an UPDATE of the named columns of the
    row with the primary key of [self]; it fails when no row is affected. *)
Definition save_update_fields (db : gmap N Asset) (self : Asset)
    (update_fields : list column) : result (gmap N Asset) :=
  match db !! id self with
  | Some row =>
      Ok (<[id self := fold_left (write_column self) update_fields row]> db)
  | None =>
      Raise (mk_exn DatabaseError
               "Save with update_fields did not affect any rows.")
  end.

(** The assignments of [Asset.update_price], before the save. *)
Definition update_price_attrs (self : Asset) (new_price : Decimal)
    (update_high_low : bool) (now : Z) : Asset :=
  let self := set_current_price new_price self in
  let self := set_price_last_updated (Some now) self in
  if update_high_low then
    let self :=
      if negb (truthy (day_high self))
         || attr_lt (day_high self) (Some new_price)
      then set_day_high (Some new_price) self
      else self in
    let self :=
      if negb (truthy (day_low self))
         || attr_lt (Some new_price) (day_low self)
      then set_day_low (Some new_price) self
      else self in
    self
  else self.

(** [Asset.update_price]: the instance and the table afterwards. *)
Definition update_price (db : gmap N Asset) (self : Asset)
    (new_price : Decimal) (update_high_low : bool) (now : Z)
    : result (Asset * gmap N Asset) :=
  let self := update_price_attrs self new_price update_high_low now in
  bind (save_update_fields db self
          [col_current_price; col_price_last_updated; col_day_high;
           col_day_low])
       (fun db' => Ok (self, db')).


End Assets.

(** ** Transactions ([Transaction], its serializers and
    [TransactionViewSet]) *)

Module Transactions.

Inductive TransactionType : Type :=
| BUY | SELL | TRANSFER_IN | TRANSFER_OUT | DIVIDEND | SPLIT | MERGE
| SPIN_OFF | RIGHTS | BONUS.

Inductive TransactionStatus : Type :=
| PENDING | PROCESSING | COMPLETED | FAILED | CANCELLED | PARTIALLY_FILLED.

Inductive OrderType : Type := MARKET | LIMIT | STOP | STOP_LIMIT.

#[global] Instance TransactionType_eq_dec : EqDecision TransactionType.
Proof. solve_decision. Defined.

#[global] Instance TransactionStatus_eq_dec : EqDecision TransactionStatus.
Proof. solve_decision. Defined.

#[global] Instance OrderType_eq_dec : EqDecision OrderType.
Proof. solve_decision. Defined.

(** A [Transaction] instance, and a row of the transaction table.
    [total_amount] is [None] on an instance that was built without it. *)
Record Transaction : Type := mk_transaction {
  id : uuid;
  created_at : Z;
  updated_at : Z;
  is_active : bool;
  user : uuid;
  asset : uuid;
  transaction_type : TransactionType;
  quantity : Decimal;
  price_per_unit : Decimal;
  total_amount : option Decimal;
  fees : Decimal;
  tax : Decimal;
  order_type : OrderType;
  limit_price : option Decimal;
  stop_price : option Decimal;
  status : TransactionStatus;
  transaction_date : Z;
  settlement_date : option Z;
  notes : string;
  external_id : string;
  broker : string
}.

Definition set_total_amount (v : option Decimal) (t : Transaction)
    : Transaction :=
  mk_transaction (id t) (created_at t) (updated_at t) (is_active t) (user t)
    (asset t) (transaction_type t) (quantity t) (price_per_unit t) v
    (fees t) (tax t) (order_type t) (limit_price t) (stop_price t)
    (status t) (transaction_date t) (settlement_date t) (notes t)
    (external_id t) (broker t).

Definition limit_price_msg : string :=
  "Limit price is required for limit orders".
Definition stop_price_msg : string :=
  "Stop price is required for stop orders".
Definition future_date_msg : string :=
  "Transaction date cannot be in the future".

(** [Transaction.clean]; [now] is [timezone.now()]. *)
Definition clean (self : Transaction) (now : Z) : result unit :=
  if bool_decide (order_type self ∈ [LIMIT; STOP_LIMIT])
     && negb (truthy (limit_price self))
  then model_error limit_price_msg
  else
    if bool_decide (order_type self ∈ [STOP; STOP_LIMIT])
       && negb (truthy (stop_price self))
    then model_error stop_price_msg
    else
      if transaction_date self >? now
      then model_error future_date_msg
      else Ok tt.

(** The first statement of [Transaction.save]: the total is computed when
    the instance has none. *)
Definition fill_total_amount (self : Transaction) : Transaction :=
  if negb (truthy (total_amount self))
  then
    let gross_amount := (quantity self * price_per_unit self)%Q in
    set_total_amount (Some (gross_amount + fees self + tax self)%Q) self
  else self.

(** The row with the key of [row] is replaced, or [row] is added. *)
Fixpoint upsert (row : Transaction) (db : list Transaction)
    : list Transaction :=
  match db with
  | [] => [row]
  | r :: db' =>
      if N.eqb (id r) (id row) then row :: db' else r :: upsert row db'
  end.

(** [Transaction.save]: the instance and the table afterwards.  [fault]
    is the error of the database when the statement fails there. *)
Definition save (fault : option exn) (db : list Transaction)
    (self : Transaction) : result (Transaction * list Transaction) :=
  let self := fill_total_amount self in
  match fault with
  | Some e => Raise e
  | None => Ok (self, upsert self db)
  end.

(** [Transaction.objects.create]: a save that must INSERT, so a primary
    key that is already taken fails. *)
Definition objects_create (fault : option exn) (db : list Transaction)
    (self : Transaction) : result (Transaction * list Transaction) :=
  if existsb (fun r => N.eqb (id r) (id self)) db
  then Raise (mk_exn IntegrityError "UNIQUE constraint failed: id")
  else save fault db self.

(** The authenticated user of a request. *)
Record User : Type := mk_user {
  user_id : uuid;
  username : string;
  is_staff : bool
}.

(** *** [TransactionDetailSerializer] *)

(** Its writable fields after field validation; [None] is an absent key
    (for the nullable prices also an explicit [null]).  [total_amount] is
    read-only, so no request provides [dd_total_amount]: it is the key
    that [create] adds. *)
Record DetailData : Type := mk_detail_data {
  dd_user_id : option uuid;
  dd_asset_id : uuid;
  dd_transaction_type : TransactionType;
  dd_quantity : Decimal;
  dd_price_per_unit : Decimal;
  dd_fees : option Decimal;
  dd_tax : option Decimal;
  dd_total_amount : option Decimal;
  dd_order_type : option OrderType;
  dd_limit_price : option Decimal;
  dd_stop_price : option Decimal;
  dd_status : option TransactionStatus;
  dd_transaction_date : option Z;
  dd_settlement_date : option Z;
  dd_notes : option string;
  dd_external_id : option string;
  dd_broker : option string
}.

Definition set_dd_user_id (v : option uuid) (d : DetailData) : DetailData :=
  mk_detail_data v (dd_asset_id d) (dd_transaction_type d) (dd_quantity d)
    (dd_price_per_unit d) (dd_fees d) (dd_tax d) (dd_total_amount d)
    (dd_order_type d) (dd_limit_price d) (dd_stop_price d) (dd_status d)
    (dd_transaction_date d) (dd_settlement_date d) (dd_notes d)
    (dd_external_id d) (dd_broker d).


(** The first statement of [TransactionDetailSerializer.validate]: data
    without a user gets the user of the request.  [request_user] is the
    user of the request in the serializer context, if there is one. *)
Definition with_request_user (request_user : option User)
    (data : DetailData) : DetailData :=
  match dd_user_id data, request_user with
  | None, Some u => set_dd_user_id (Some (user_id u)) data
  | _, _ => data
  end.

(** [TransactionDetailSerializer.validate] *)
Definition detail_validate (request_user : option User) (now : Z)
    (data : DetailData) : result DetailData :=
  let data := with_request_user request_user data in
  let order_type := default MARKET (dd_order_type data) in
  if bool_decide (order_type ∈ [LIMIT; STOP_LIMIT])
     && negb (truthy (dd_limit_price data))
  then serializer_error limit_price_msg
  else
    if bool_decide (order_type ∈ [STOP; STOP_LIMIT])
       && negb (truthy (dd_stop_price data))
    then serializer_error stop_price_msg
    else
      match dd_transaction_date data with
      | Some transaction_date =>
          if transaction_date >? now
          then serializer_error future_date_msg
          else Ok data
      | None => Ok data
      end.



(** *** [TransactionCreateSerializer] *)

(** The parsed request body; [None] is an absent key (for the nullable
    prices also an explicit [null]). *)
Record CreateData : Type := mk_create_data {
  cd_asset : uuid;
  cd_transaction_type : TransactionType;
  cd_quantity : Decimal;
  cd_price_per_unit : Decimal;
  cd_fees : option Decimal;
  cd_tax : option Decimal;
  cd_order_type : option OrderType;
  cd_limit_price : option Decimal;
  cd_stop_price : option Decimal;
  cd_notes : option string;
  cd_broker : option string
}.

(** [MinValueValidator(limit)] on a field; the message of the framework
    names the limit. *)
Definition min_value (field : string) (limit : Decimal) (v : Decimal)
    : list (string * string) :=
  if dec_lt v limit
  then [(field, "Ensure this value is greater than or equal to the limit.")]
  else [].

Definition min_value_opt (field : string) (limit : Decimal)
    (v : option Decimal) : list (string * string) :=
  match v with
  | Some x => min_value field limit x
  | None => []
  end.

(** [TransactionCreateSerializer.validate_quantity] *)
Definition validate_quantity (value : Decimal) : result Decimal :=
  if dec_le value 0%Q
  then serializer_error "Quantity must be greater than zero"
  else Ok value.

(** [TransactionCreateSerializer.validate_price_per_unit] *)
Definition validate_price_per_unit (value : Decimal) : result Decimal :=
  if dec_le value 0%Q
  then serializer_error "Price per unit must be greater than zero"
  else Ok value.

(** A field with its validators, then its [validate_<field>] method, which
    runs when the validators found nothing. *)
Definition field_then_method (field : string)
    (validators : list (string * string)) (method : result Decimal)
    : list (string * string) :=
  match validators with
  | [] =>
      match method with
      | Ok _ => []
      | Raise e => [(field, exn_str e)]
      end
  | errs => errs
  end.

(** The errors of all fields, in the order of [Meta.fields].  [assets]
    holds the primary keys of the asset table. *)
Definition field_errors (assets : gset N) (d : CreateData)
    : list (string * string) :=
  (if bool_decide (cd_asset d ∈ assets) then []
   else [("asset", "Invalid pk - object does not exist.")])
  ++ field_then_method "quantity"
       (min_value "quantity" (1 # 100000000)%Q (cd_quantity d))
       (validate_quantity (cd_quantity d))
  ++ field_then_method "price_per_unit"
       (min_value "price_per_unit" (1 # 100)%Q (cd_price_per_unit d))
       (validate_price_per_unit (cd_price_per_unit d))
  ++ min_value_opt "fees" 0%Q (cd_fees d)
  ++ min_value_opt "tax" 0%Q (cd_tax d)
  ++ min_value_opt "limit_price" (1 # 100)%Q (cd_limit_price d)
  ++ min_value_opt "stop_price" (1 # 100)%Q (cd_stop_price d).

(** [str(e)] of the error that carries the messages of the fields. *)
Definition render_errors (errs : list (string * string)) : string :=
  String.concat "; " (map (fun fe => fe.1 ++ ": " ++ fe.2) errs).

(** [serializer.is_valid(raise_exception=True)] *)
Definition create_is_valid (assets : gset N) (d : CreateData)
    : result CreateData :=
  match field_errors assets d with
  | [] => Ok d
  | errs => Raise (mk_exn DRFValidationError (render_errors errs))
  end.

(** The instance that [Transaction.objects.create] builds from the keys
    of a [CreateData], with the model defaults, before the save. *)
Definition create_instance (new_id : uuid) (now : Z) (owner : uuid)
    (transaction_date : Z) (v : CreateData) : Transaction :=
  {| id := new_id;
     created_at := now;
     updated_at := now;
     is_active := true;
     user := owner;
     asset := cd_asset v;
     transaction_type := cd_transaction_type v;
     quantity := cd_quantity v;
     price_per_unit := cd_price_per_unit v;
     total_amount := None;
     fees := default 0%Q (cd_fees v);
     tax := default 0%Q (cd_tax v);
     order_type := default MARKET (cd_order_type v);
     limit_price := cd_limit_price v;
     stop_price := cd_stop_price v;
     status := PENDING;
     transaction_date := transaction_date;
     settlement_date := None;
     notes := default "" (cd_notes v);
     external_id := "";
     broker := default "" (cd_broker v) |}.

(** [TransactionCreateSerializer.create]: the user is the one of the
    request, the date is now ([transaction_date] is not a field of this
    serializer). *)
Definition create_create (fault : option exn) (db : list Transaction)
    (request_user : User) (new_id : uuid) (now : Z)
    (validated_data : CreateData)
    : result (Transaction * list Transaction) :=
  objects_create fault db
    (create_instance new_id now (user_id request_user) now validated_data).

(** *** [TransactionViewSet.create] *)

(** The two responses of the view: 201 with the serialised transaction,
    or 400 with an error and its details. *)
Inductive create_response : Type :=
| Created (t : Transaction)
| BadRequest (error details : string).

Definition create_status (r : create_response) : Z :=
  match r with
  | Created _ => HTTP_201_CREATED
  | BadRequest _ _ => HTTP_400_BAD_REQUEST
  end.

(** The [try] block and its [except Exception] handler.  [body] is the
    outcome of the statements of the block. *)
Definition create_try (request_user : User) (db : list Transaction)
    (body : result (Transaction * list Transaction))
    : create_response * list log_record * list Transaction :=
  let started :=
    (INFO, "Recording new transaction for user: " ++ username request_user)
  in
  match body with
  | Ok (t, db') => (Created t, [started], db')
  | Raise e =>
      (BadRequest "Failed to record transaction"
         (if is_staff request_user then exn_str e
          else "Invalid transaction data"),
       [started; (ERROR, "Error creating transaction: " ++ exn_str e)],
       db)
  end.

(** [TransactionViewSet.create]: response, log records, table afterwards. *)
Definition create_view (fault : option exn) (assets : gset N)
    (db : list Transaction) (request_user : User) (new_id : uuid) (now : Z)
    (d : CreateData)
    : create_response * list log_record * list Transaction :=
  create_try request_user db
    (bind (create_is_valid assets d)
          (create_create fault db request_user new_id now)).

(** *** [TransactionViewSet.summary] *)

(** [aggregate(total=Sum(column))['total']]: [None] on no rows. *)
Definition sql_sum (column : Transaction -> option Decimal)
    (rows : list Transaction) : option Decimal :=
  fold_left
    (fun acc row =>
       match column row, acc with
       | Some v, Some a => Some (a + v)%Q
       | Some v, None => Some v
       | None, _ => acc
       end)
    rows None.

(** [order_by('-transaction_date')]: later rows first, rows of one date in
    the order of the table. *)
Fixpoint insert_by_date (row : Transaction) (sorted : list Transaction)
    : list Transaction :=
  match sorted with
  | [] => [row]
  | r :: rest =>
      if (transaction_date r <? transaction_date row)%Z
      then row :: sorted
      else r :: insert_by_date row rest
  end.

Definition order_by_date_desc (rows : list Transaction) : list Transaction :=
  fold_right insert_by_date [] rows.

Record Summary : Type := mk_summary {
  total_transactions : nat;
  total_volume : Decimal;
  buy_volume : Decimal;
  sell_volume : Decimal;
  net_volume : Decimal;
  pending_transactions : nat
}.

Definition has_status (s : TransactionStatus) (t : Transaction) : bool :=
  bool_decide (status t = s).

Definition has_type (ty : TransactionType) (t : Transaction) : bool :=
  bool_decide (transaction_type t = ty).

(** The 200 response of [TransactionViewSet.summary]: the [summary] object
    and the rows of [recent_transactions]. *)
Definition summary (db : list Transaction) (request_user : User)
    : Summary * list Transaction :=
  let user_transactions :=
    List.filter
      (fun t => N.eqb (user t) (user_id request_user) && is_active t) db in
  let completed_transactions :=
    List.filter (has_status COMPLETED) user_transactions in
  let total_transactions := length completed_transactions in
  let total_volume := or_zero (sql_sum total_amount completed_transactions) in
  let buy_volume :=
    or_zero (sql_sum total_amount
               (List.filter (has_type BUY) completed_transactions)) in
  let sell_volume :=
    or_zero (sql_sum total_amount
               (List.filter (has_type SELL) completed_transactions)) in
  let recent_transactions :=
    take 5 (order_by_date_desc user_transactions) in
  ({| total_transactions := total_transactions;
      total_volume := total_volume;
      buy_volume := buy_volume;
      sell_volume := sell_volume;
      net_volume := (buy_volume - sell_volume)%Q;
      pending_transactions :=
        length (List.filter (has_status PENDING) user_transactions) |},
   recent_transactions).

(** *** Vocabulary of the properties *)

(** The order types for which each price is required. *)
Definition needs_limit_price (o : OrderType) : Prop :=
  o = LIMIT \/ o = STOP_LIMIT.
Definition needs_stop_price (o : OrderType) : Prop :=
  o = STOP \/ o = STOP_LIMIT.

(** A price that was not given, or is zero. *)
Definition absent_or_zero (price : option Decimal) : Prop :=
  price = None \/ exists v, price = Some v /\ (v == 0)%Q.

(** The sum of [total_amount] over rows, in the rationals. *)
Definition sum_total_amount (rows : list Transaction) : Q :=
  fold_right (fun t acc => (default 0%Q (total_amount t) + acc)%Q) 0%Q rows.

(** The active COMPLETED transactions of a user. *)
Definition completed_of (u : User) (t : Transaction) : bool :=
  N.eqb (user t) (user_id u) && is_active t
  && bool_decide (status t = COMPLETED).

End Transactions.

(** ** Error handling ([ErrorHandlingMiddleware], the [try] blocks of the
    analytics helpers) *)

Module Errors.

(** [ErrorHandlingMiddleware.process_exception]: the response of the
    middleware ([None] leaves the exception to the framework) and the log
    records it writes. *)
Definition process_exception (exception : exn)
    : option Response * list log_record :=
  if str_in "rest_framework" (module_of (exn_cls exception))
  then (None, [])
  else
    (Some (mk_response 500
             (JObj [("error", JStr "An unexpected error occurred");
                    ("message",
                     JStr "Please try again later or contact support");
                    ("status_code", JInt 500)])),
     [(ERROR, "Unhandled exception: " ++ exn_str exception)]).

(** The [try] / [except Exception] frame shared by the helpers of
    [assets/utils.py]: the rows of the [try] block, or the empty list and
    an error record. *)
Definition helper_try (helper_name : string) (body : result (list json))
    : list json * list log_record :=
  match body with
  | Ok rows => (rows, [])
  | Raise e =>
      ([], [(ERROR, "Error in " ++ helper_name ++ ": " ++ exn_str e)])
  end.

(** [get_asset_distribution_data]; [query] is the outcome of evaluating
    the grouped queryset and converting its rows. *)
Definition get_asset_distribution_data (query : result (list json))
    : list json * list log_record :=
  helper_try "get_asset_distribution_data" query.

(** An exception that is neither a validation error nor one of the
    authentication and permission errors. *)
Definition unexpected (e : exn) : bool :=
  match exn_cls e with
  | DjangoValidationError | DRFValidationError
  | DRFPermissionDenied | DRFNotAuthenticated => false
  | _ => true
  end.

End Errors.

(** ** Analytics ([AnalyticsViewSet.graphs]) *)

Module Analytics.

(** The [days] query parameter: absent, a string that [int] accepts (with
    its value), or a string on which [int] raises. *)
Inductive days_param : Type :=
| days_absent
| days_int (z : Z)
| days_not_int (raw : string).

(** [int(request.query_params.get('days', 30))] *)
Definition int_of_days (p : days_param) : result Z :=
  match p with
  | days_absent => Ok 30
  | days_int z => Ok z
  | days_not_int raw =>
      Raise (mk_exn ValueError
               ("invalid literal for int() with base 10: '" ++ raw ++ "'"))
  end.

(** What the seven helpers of [assets/utils.py] return; each of them
    catches its own exceptions. *)
Record GraphSources : Type := mk_graph_sources {
  get_user_growth_data : Z -> Z -> list json;
  get_asset_distribution_data : list json;
  get_transaction_volume_data : Z -> Z -> list json;
  get_portfolio_performance_data : list json;
  get_asset_type_performance : list json;
  get_top_assets_by_volume : list json;
  get_transaction_trends : Z -> Z -> list json
}.

(** The four queries of the summary block. *)
Record SummaryCounts : Type := mk_summary_counts {
  total_users : Z;
  total_assets : Z;
  total_transactions : Z;
  completed_volume : option Decimal
}.


Definition microseconds_per_day : Z := 86400 * 1000000.

Definition bad_request (msg : string) : Response :=
  mk_response HTTP_400_BAD_REQUEST (JObj [("error", JStr msg)]).

(** [response_data.update({...})]: the entries of all seven graphs. *)
Definition all_graphs (src : GraphSources) (start_date end_date : Z)
    : list (string * json) :=
  [("user_growth", JList (get_user_growth_data src start_date end_date));
   ("asset_distribution", JList (get_asset_distribution_data src));
   ("transaction_volume",
    JList (get_transaction_volume_data src start_date end_date));
   ("portfolio_performance", JList (get_portfolio_performance_data src));
   ("asset_type_performance", JList (get_asset_type_performance src));
   ("top_assets", JList (get_top_assets_by_volume src));
   ("transaction_trends",
    JList (get_transaction_trends src start_date end_date))].

(** The [if] / [elif] chain on a truthy [graph_type]: the entry put into
    [response_data], or the response returned for an unknown type. *)
Definition one_graph (src : GraphSources) (start_date end_date : Z)
    (g : string) : Response + list (string * json) :=
  if String.eqb g "user_growth" then
    inr [("user_growth",
          JList (get_user_growth_data src start_date end_date))]
  else if String.eqb g "asset_distribution" then
    inr [("asset_distribution", JList (get_asset_distribution_data src))]
  else if String.eqb g "transaction_volume" then
    inr [("transaction_volume",
          JList (get_transaction_volume_data src start_date end_date))]
  else if String.eqb g "portfolio_performance" then
    inr [("portfolio_performance",
          JList (get_portfolio_performance_data src))]
  else if String.eqb g "asset_type_performance" then
    inr [("asset_type_performance", JList (get_asset_type_performance src))]
  else if String.eqb g "top_assets" then
    inr [("top_assets", JList (get_top_assets_by_volume src))]
  else if String.eqb g "transaction_trends" then
    inr [("transaction_trends",
          JList (get_transaction_trends src start_date end_date))]
  else inl (bad_request ("Unknown graph type: " ++ g)).

(** The branch on [graph_type]; [None] and the empty string are falsy. *)
Definition select_graphs (src : GraphSources) (start_date end_date : Z)
    (graph_type : option string) : Response + list (string * json) :=
  match graph_type with
  | Some g =>
      if str_truthy g then one_graph src start_date end_date g
      else inr (all_graphs src start_date end_date)
  | None => inr (all_graphs src start_date end_date)
  end.

(** The [summary] entry of the response. *)
Definition summary_block (isoformat : Z -> string) (c : SummaryCounts)
    (start_date end_date days : Z) : json :=
  JObj [("total_users", JInt (total_users c));
        ("total_assets", JInt (total_assets c));
        ("total_transactions", JInt (total_transactions c));
        ("total_volume", JDec (or_zero (completed_volume c)));
        ("date_range",
         JObj [("start_date", JStr (isoformat start_date));
               ("end_date", JStr (isoformat end_date));
               ("days", JInt days)])].

(** The [try] block of [graphs]; a [return] inside it is an [Ok].
    [summary_queries] is the outcome of the four queries of the summary
    block, which can fail in the database. *)
Definition graphs_try (src : GraphSources)
    (summary_queries : result SummaryCounts) (isoformat : Z -> string)
    (now : Z) (days : days_param) (graph_type : option string)
    : result (Response * list log_record) :=
  bind (int_of_days days) (fun days =>
    if (days <? 1)%Z || (days >? 365)%Z
    then Ok (bad_request "Days parameter must be between 1 and 365", [])
    else
      let end_date := now in
      let start_date := end_date - days * microseconds_per_day in
      match select_graphs src start_date end_date graph_type with
      | inl response => Ok (response, [])
      | inr response_data =>
          bind summary_queries (fun c =>
            Ok (mk_response HTTP_200_OK
                  (JObj (response_data ++
                         [("summary",
                           summary_block isoformat c start_date end_date
                             days)])),
                [(INFO, "Successfully generated analytics data for "
                        ++ pretty days ++ " days")]))
      end).

(** [AnalyticsViewSet.graphs] with its two handlers. *)
Definition graphs (src : GraphSources)
    (summary_queries : result SummaryCounts) (isoformat : Z -> string)
    (now : Z) (is_staff : bool) (days : days_param)
    (graph_type : option string) : Response * list log_record :=
  match graphs_try src summary_queries isoformat now days graph_type with
  | Ok r => r
  | Raise e =>
      if is_value_error e then
        (bad_request "Invalid parameters provided",
         [(ERROR, "Invalid parameter in analytics request: " ++ exn_str e)])
      else
        (mk_response HTTP_500_INTERNAL_SERVER_ERROR
           (JObj [("error", JStr "Failed to generate analytics data");
                  ("details",
                   JStr (if is_staff then exn_str e
                         else "Internal server error"))]),
         [(ERROR, "Error generating analytics data: " ++ exn_str e)])
  end.

(** *** Vocabulary of the properties *)



End Analytics.

(** ** Concrete inputs used by the examples *)

Module Samples.

Definition alice : Transactions.User :=
  Transactions.mk_user 1 "alice" false.

Definition asset_keys : gset N := {[ 7%N ]}.

(** Buy 2 units at 150.25 with fees of 9.99. *)
Definition buy_order : Transactions.CreateData :=
  Transactions.mk_create_data 7 Transactions.BUY 2%Q (601 # 4)%Q
    (Some (999 # 100)%Q) None None None None None None.

Definition zero_quantity_order : Transactions.CreateData :=
  Transactions.mk_create_data 7 Transactions.BUY 0%Q (601 # 4)%Q
    None None None None None None None.

(** A LIMIT order that names no limit price. *)
Definition limit_order_without_price : Transactions.CreateData :=
  Transactions.mk_create_data 7 Transactions.BUY 2%Q (601 # 4)%Q
    None None (Some Transactions.LIMIT) None None None None.

Definition buy_detail : Transactions.DetailData :=
  Transactions.mk_detail_data (Some 1%N) 7 Transactions.BUY 2%Q (601 # 4)%Q
    (Some (999 # 100)%Q) None None None None None None (Some 90) None None
    None None.

(** A MARKET order without prices, dated at instant 100. *)
Definition market_order : Transactions.Transaction :=
  Transactions.mk_transaction 3 0 0 true 1 7 Transactions.BUY 2%Q
    (601 # 4)%Q None 0%Q 0%Q Transactions.MARKET None None
    Transactions.PENDING 100 None "" "" "".

(** A LIMIT order without a limit price, dated at instant 100. *)
Definition limit_order : Transactions.Transaction :=
  Transactions.mk_transaction 5 0 0 true 1 7 Transactions.BUY 2%Q
    (601 # 4)%Q None 0%Q 0%Q Transactions.LIMIT None None
    Transactions.PENDING 100 None "" "" "".

Definition completed (pk owner : uuid) (ty : Transactions.TransactionType)
    (amount : Decimal) : Transactions.Transaction :=
  Transactions.mk_transaction pk 0 0 true owner 7 ty 1%Q amount
    (Some amount) 0%Q 0%Q Transactions.MARKET None None
    Transactions.COMPLETED 50 None "" "" "".

Definition ledger : list Transactions.Transaction :=
  [completed 10 1 Transactions.BUY 30%Q;
   completed 11 1 Transactions.SELL 12%Q;
   completed 12 2 Transactions.BUY 500%Q].

(** An asset priced at 5 whose day high is 0 and whose day low is 5. *)
Definition zero_high_asset : Assets.Asset :=
  Assets.mk_asset 7 0 0 true "Acme" "ACME" Assets.STOCK None "" "" ""
    5%Q "USD" None Assets.MEDIUM None None Assets.ACTIVE "" None None
    (Some 0%Q) (Some 5%Q).

(** An asset priced at 10 that moved between 8 and 12 today. *)
Definition acme : Assets.Asset :=
  Assets.mk_asset 7 0 0 true "Acme" "ACME" Assets.STOCK None "" "" ""
    10%Q "USD" None Assets.MEDIUM None None Assets.ACTIVE "" None None
    (Some 12%Q) (Some 8%Q).

Definition asset_table : gmap N Assets.Asset := {[ 7%N := acme ]}.

(** A category that names itself as its parent. *)
Definition own_parent : Category.AssetCategory :=
  Category.mk_category 4 0 0 true "Equities" "" (Some 4%N) "" "#007bff".

Definition equities : Category.CategoryData :=
  Category.mk_category_data (Some "Equities") None None None None None.

Definition lost_connection : exn :=
  mk_exn DatabaseError "server closed the connection unexpectedly".



End Samples.

(** ** More of the transaction code: amounts, volumes, updates *)

Module Accounting.
Import Transactions.




(** [Asset.get_total_volume], on the rows of [self.transactions]. *)
Definition get_total_volume (db : list Transaction) (asset_id : uuid)
    : Decimal :=
  or_zero
    (sql_sum total_amount
       (List.filter (has_status COMPLETED)
          (List.filter (fun t => N.eqb (asset t) asset_id) db))).

(** [Asset.get_transaction_count] *)
Definition get_transaction_count (db : list Transaction) (asset_id : uuid)
    : nat :=
  length
    (List.filter (has_status COMPLETED)
       (List.filter (fun t => N.eqb (asset t) asset_id) db)).

(** The writable fields of [TransactionDetailSerializer] in an update;
    [None] is an absent key, [Some None] an explicit [null]. *)
Record UpdateData : Type := mk_update_data {
  ud_user_id : option uuid;
  ud_asset_id : option uuid;
  ud_transaction_type : option TransactionType;
  ud_quantity : option Decimal;
  ud_price_per_unit : option Decimal;
  ud_fees : option Decimal;
  ud_tax : option Decimal;
  ud_order_type : option OrderType;
  ud_limit_price : option (option Decimal);
  ud_stop_price : option (option Decimal);
  ud_status : option TransactionStatus;
  ud_transaction_date : option Z;
  ud_settlement_date : option (option Z);
  ud_notes : option string;
  ud_external_id : option string;
  ud_broker : option string;
  ud_is_active : option bool
}.

Definition set_ud_user_id (v : option uuid) (d : UpdateData) : UpdateData :=
  mk_update_data v (ud_asset_id d) (ud_transaction_type d) (ud_quantity d)
    (ud_price_per_unit d) (ud_fees d) (ud_tax d) (ud_order_type d)
    (ud_limit_price d) (ud_stop_price d) (ud_status d)
    (ud_transaction_date d) (ud_settlement_date d) (ud_notes d)
    (ud_external_id d) (ud_broker d) (ud_is_active d).

(** [data.get(key)] for a nullable key: absent and [null] both give
    [None]. *)
Definition get_nullable (v : option (option Decimal)) : option Decimal :=
  match v with
  | Some x => x
  | None => None
  end.

(** [TransactionDetailSerializer.validate] on the data of an update: the
    same statements, on the keys that the request names. *)
Definition update_validate (request_user : option User) (now : Z)
    (data : UpdateData) : result UpdateData :=
  let data :=
    match ud_user_id data, request_user with
    | None, Some u => set_ud_user_id (Some (user_id u)) data
    | _, _ => data
    end in
  let order_type := default MARKET (ud_order_type data) in
  if bool_decide (order_type ∈ [LIMIT; STOP_LIMIT])
     && negb (truthy (get_nullable (ud_limit_price data)))
  then serializer_error limit_price_msg
  else
    if bool_decide (order_type ∈ [STOP; STOP_LIMIT])
       && negb (truthy (get_nullable (ud_stop_price data)))
    then serializer_error stop_price_msg
    else
      match ud_transaction_date data with
      | Some transaction_date =>
          if transaction_date >? now
          then serializer_error future_date_msg
          else Ok data
      | None => Ok data
      end.

(** [ModelSerializer.update] up to its save: every key of the validated
    data is assigned to the instance; [updated_at] is set by the save.
    [total_amount] is read-only and never among the keys. *)
Definition assign_validated (instance : Transaction) (now : Z)
    (v : UpdateData) : Transaction :=
  {| id := id instance;
     created_at := created_at instance;
     updated_at := now;
     is_active := default (is_active instance) (ud_is_active v);
     user := default (user instance) (ud_user_id v);
     asset := default (asset instance) (ud_asset_id v);
     transaction_type :=
       default (transaction_type instance) (ud_transaction_type v);
     quantity := default (quantity instance) (ud_quantity v);
     price_per_unit :=
       default (price_per_unit instance) (ud_price_per_unit v);
     total_amount := total_amount instance;
     fees := default (fees instance) (ud_fees v);
     tax := default (tax instance) (ud_tax v);
     order_type := default (order_type instance) (ud_order_type v);
     limit_price := default (limit_price instance) (ud_limit_price v);
     stop_price := default (stop_price instance) (ud_stop_price v);
     status := default (status instance) (ud_status v);
     transaction_date :=
       default (transaction_date instance) (ud_transaction_date v);
     settlement_date :=
       default (settlement_date instance) (ud_settlement_date v);
     notes := default (notes instance) (ud_notes v);
     external_id := default (external_id instance) (ud_external_id v);
     broker := default (broker instance) (ud_broker v) |}.

(** [ModelSerializer.update]: the assignments, then [Transaction.save]. *)
Definition serializer_update (fault : option exn) (db : list Transaction)
    (instance : Transaction) (now : Z) (v : UpdateData)
    : result (Transaction * list Transaction) :=
  save fault db (assign_validated instance now v).

(** The validators of the fields that an update names. *)
Definition update_field_errors (d : UpdateData) : list (string * string) :=
  min_value_opt "quantity" (1 # 100000000)%Q (ud_quantity d)
  ++ min_value_opt "price_per_unit" (1 # 100)%Q (ud_price_per_unit d)
  ++ min_value_opt "fees" 0%Q (ud_fees d)
  ++ min_value_opt "tax" 0%Q (ud_tax d)
  ++ min_value_opt "limit_price" (1 # 100)%Q
       (get_nullable (ud_limit_price d))
  ++ min_value_opt "stop_price" (1 # 100)%Q
       (get_nullable (ud_stop_price d)).

(** [serializer.is_valid(raise_exception=True)] of an update: the fields,
    then [validate]. *)
Definition update_is_valid (request_user : option User) (now : Z)
    (d : UpdateData) : result UpdateData :=
  match update_field_errors d with
  | [] => update_validate request_user now d
  | errs => Raise (mk_exn DRFValidationError (render_errors errs))
  end.

(** *** Who may see which transaction *)

(** [request.user] with the flags that the view and the permission class
    read. *)
Record Requester : Type := mk_requester {
  account : User;
  is_authenticated : bool;
  is_superuser : bool
}.

(** The query parameters that [get_queryset] reads, parsed: the [user]
    key, and the two dates as day numbers. *)
Record QueryParams : Type := mk_query_params {
  qp_user : option uuid;
  qp_date_from : option Z;
  qp_date_to : option Z
}.

(** [TransactionViewSet.get_queryset]; [date_of] gives the day of an
    instant ([transaction_date__date]). *)
Definition get_queryset (date_of : Z -> Z) (db : list Transaction)
    (who : Requester) (params : QueryParams) : list Transaction :=
  let queryset := List.filter is_active db in
  if negb (is_authenticated who) then []
  else
    let queryset :=
      if negb (is_staff (account who))
      then
        List.filter (fun t => N.eqb (user t) (user_id (account who)))
          queryset
      else
        match qp_user params with
        | Some user_id => List.filter (fun t => N.eqb (user t) user_id)
                            queryset
        | None => queryset
        end in
    let queryset :=
      match qp_date_from params with
      | Some date_from =>
          List.filter
            (fun t => (date_from <=? date_of (transaction_date t))%Z)
            queryset
      | None => queryset
      end in
    let queryset :=
      match qp_date_to params with
      | Some date_to =>
          List.filter
            (fun t => (date_of (transaction_date t) <=? date_to)%Z)
            queryset
      | None => queryset
      end in
    queryset.

(** [IsOwnerOrAdminPermission.has_object_permission] for a transaction,
    which has a [user] attribute. *)
Definition has_object_permission (who : Requester) (obj : Transaction)
    : bool :=
  if is_staff (account who) || is_superuser who then true
  else N.eqb (user obj) (user_id (account who)).

(** [get_object]: the row with the key in the queryset, or 404; then the
    object permission, or 403. *)
Definition get_object (date_of : Z -> Z) (db : list Transaction)
    (who : Requester) (params : QueryParams) (pk : uuid)
    : result Transaction :=
  match List.find (fun t => N.eqb (id t) pk)
          (get_queryset date_of db who params) with
  | None => Raise (mk_exn Http404 "No Transaction matches the given query.")
  | Some obj =>
      if has_object_permission who obj then Ok obj
      else Raise (mk_exn DRFPermissionDenied
                    "You do not have permission to perform this action.")
  end.

(** *** [BaseModel.soft_delete] and [BaseModel.restore] on transactions *)

Definition set_is_active (v : bool) (t : Transaction) : Transaction :=
  mk_transaction (id t) (created_at t) (updated_at t) v (user t) (asset t)
    (transaction_type t) (quantity t) (price_per_unit t) (total_amount t)
    (fees t) (tax t) (order_type t) (limit_price t) (stop_price t)
    (status t) (transaction_date t) (settlement_date t) (notes t)
    (external_id t) (broker t).

(** [self.save(update_fields=['is_active'])]: [Transaction.save] fills
    the total of the instance, then the UPDATE writes the one column of
    the rows with the key of [self]; it fails when there is none. *)
Definition save_is_active (db : list Transaction) (self : Transaction)
    : result (Transaction * list Transaction) :=
  let self := fill_total_amount self in
  if existsb (fun r => N.eqb (id r) (id self)) db
  then
    Ok (self,
        map (fun r =>
               if N.eqb (id r) (id self)
               then set_is_active (is_active self) r
               else r) db)
  else
    Raise (mk_exn DatabaseError
             "Save with update_fields did not affect any rows.").

(** [BaseModel.soft_delete] *)
Definition soft_delete (db : list Transaction) (self : Transaction)
    : result (Transaction * list Transaction) :=
  save_is_active db (set_is_active false self).

(** [BaseModel.restore] *)
Definition restore (db : list Transaction) (self : Transaction)
    : result (Transaction * list Transaction) :=
  save_is_active db (set_is_active true self).

(** *** Vocabulary of the properties *)



(** The COMPLETED rows of an asset, soft-deleted ones included. *)
Definition completed_on (asset_id : uuid) (t : Transaction) : bool :=
  N.eqb (asset t) asset_id && bool_decide (status t = COMPLETED).

(** The active COMPLETED rows of a user that are neither BUY nor SELL. *)
Definition completed_other (u : User) (t : Transaction) : bool :=
  completed_of u t
  && negb (bool_decide (transaction_type t = BUY))
  && negb (bool_decide (transaction_type t = SELL)).

(** The UPDATE of [save_is_active]: rows other than those of the key are
    kept, the others change in [is_active] only. *)
Definition flag_rows (pk : uuid) (v : bool) (r : Transaction)
    : Transaction :=
  if N.eqb (id r) pk then set_is_active v r else r.

End Accounting.

(** ** More of the asset code: [AssetViewSet] and the asset serializers *)

Module AssetViews.
Import Assets.

(** A decimal read from a request: a falsy value (absent, null, empty,
    zero), a truthy value whose text [Decimal] accepts, with the finite
    value it denotes, or a truthy value on whose text [Decimal] raises
    [decimal.InvalidOperation]. *)
Inductive request_decimal : Type :=
| decimal_falsy
| decimal_value (q : Decimal)
| decimal_unparsable (raw : string).

(** [decimal.InvalidOperation], an [ArithmeticError]: neither a
    [ValueError] nor a [TypeError]. *)
Definition invalid_operation (raw : string) : exn :=
  mk_exn (OtherException "decimal")
    ("[<class 'decimal.ConversionSyntax'>] " ++ raw).

(** One price filter of [AssetViewSet.get_queryset], as the condition
    it puts on a row: a falsy parameter is skipped, an unparsable one
    raises past the [except (ValueError, TypeError)] clause. *)
Definition bound_filter (keep : Decimal -> Decimal -> bool)
    (bound : request_decimal) : result (Asset -> bool) :=
  match bound with
  | decimal_falsy => Ok (fun _ => true)
  | decimal_value q => Ok (fun a => keep q (current_price a))
  | decimal_unparsable raw => Raise (invalid_operation raw)
  end.

(** [AssetViewSet.get_queryset], as the condition that selects its rows:
    active, and within the price bounds. *)
Definition get_queryset (min_price max_price : request_decimal)
    : result (Asset -> bool) :=
  bind (bound_filter (fun q price => dec_le q price) min_price)
    (fun above =>
  bind (bound_filter (fun q price => dec_le price q) max_price)
    (fun below =>
  Ok (fun a => is_active a && above a && below a))).

(** [self.get_object()]: the row of the key when the queryset selects
    it, or the 404 error. *)
Definition get_object (db : gmap N Asset) (min_price max_price
    : request_decimal) (pk : uuid) : result Asset :=
  bind (get_queryset min_price max_price) (fun selected =>
  match db !! pk with
  | Some a =>
      if selected a then Ok a
      else Raise (mk_exn Http404 "No Asset matches the given query.")
  | None => Raise (mk_exn Http404 "No Asset matches the given query.")
  end).

(** The responses of [AssetViewSet.update_price]: 200 with the
    serialised asset, or an error with its status. *)
Inductive price_response : Type :=
| PriceUpdated (a : Asset)
| PriceError (status : Z) (error : string).

(** The inner [try]: [Decimal(str(new_price))], and [ValueError] for a
    price that is not positive; the [except (ValueError, TypeError)]
    clause turns those two into the 400 response. *)
Definition parse_price (new_price : request_decimal)
    : result (price_response + Decimal) :=
  match new_price with
  | decimal_falsy => Ok (inl (PriceError HTTP_400_BAD_REQUEST
                                "Price is required"))
  | decimal_value q =>
      if dec_le q 0%Q
      then Ok (inl (PriceError HTTP_400_BAD_REQUEST
                      "Invalid price format"))
      else Ok (inr q)
  | decimal_unparsable raw => Raise (invalid_operation raw)
  end.

(** [AssetViewSet.update_price]: response, log records and table
    afterwards.  [min_price] and [max_price] are the query parameters of
    the request, [price] and [update_high_low] the keys of its body (the
    second by its truthiness, true when absent). *)
Definition update_price_view (db : gmap N Asset) (min_price max_price
    : request_decimal) (pk : uuid) (price : request_decimal)
    (update_high_low : bool) (now : Z)
    : price_response * list log_record * gmap N Asset :=
  match
    bind (get_object db min_price max_price pk) (fun asset =>
    bind (parse_price price) (fun parsed =>
    match parsed with
    | inl response => Ok (response, db)
    | inr new_price =>
        bind (update_price db asset new_price update_high_low now)
          (fun '(asset, db') => Ok (PriceUpdated asset, db'))
    end))
  with
  | Ok (response, db') => (response, [], db')
  | Raise e =>
      (PriceError HTTP_500_INTERNAL_SERVER_ERROR "Failed to update price",
       [(ERROR, "Error updating price for asset " ++ pretty pk ++ ": "
                ++ exn_str e)],
       db)
  end.

(** *** Symbols *)

Section Symbols.

(** [str.upper] and [str.strip] of Python. *)
Variables (upper strip : string -> string).

(** [Asset.objects.filter(symbol=value).exists()], without the row
    [exclude] when there is one. *)
Definition symbol_exists (db : gmap N Asset) (exclude : option uuid)
    (value : string) : bool :=
  bool_decide (map_Exists (fun _ row =>
    symbol row = value /\ exclude <> Some (id row)) db).

(** [AssetDetailSerializer.validate_symbol] *)
Definition detail_validate_symbol (db : gmap N Asset)
    (instance : option Asset) (value : string) : result string :=
  if symbol_exists db (option_map id instance) value
  then serializer_error "Asset with this symbol already exists"
  else Ok (upper value).

(** [AssetCreateSerializer.validate_symbol] *)
Definition create_validate_symbol (db : gmap N Asset) (value : string)
    : result string :=
  let symbol := strip (upper value) in
  if symbol_exists db None symbol
  then serializer_error "Asset with this symbol already exists"
  else Ok symbol.

End Symbols.

(** [AssetDetailSerializer.validate_current_price] *)
Definition validate_current_price (value : Decimal) : result Decimal :=
  if dec_le value 0%Q
  then serializer_error "Price must be greater than zero"
  else Ok value.

End AssetViews.

(** ** Category paths ([AssetCategory.get_full_path]) *)

Module CategoryPaths.
Import Category.

(** [AssetCategory.DoesNotExist], raised when [self.parent] names a row
    that the table does not have. *)
Definition does_not_exist : exn :=
  mk_exn (OtherException "assets.models")
    "AssetCategory matching query does not exist.".

(** [AssetCategory.get_full_path]; [self.parent] loads the parent row
    from the table.  [fuel] bounds the depth of the recursion: [None] is
    a call that has not returned within that depth. *)
Fixpoint get_full_path (fuel : nat) (db : gmap N AssetCategory)
    (self : AssetCategory) : option (result string) :=
  match fuel with
  | O => None
  | S fuel' =>
      match parent self with
      | Some p =>
          match db !! p with
          | Some parent_row =>
              match get_full_path fuel' db parent_row with
              | Some (Ok path) => Some (Ok (path ++ " > " ++ name self))
              | Some (Raise e) => Some (Raise e)
              | None => None
              end
          | None => Some (Raise does_not_exist)
          end
      | None => Some (Ok (name self))
      end
  end.

(** *** Vocabulary of the properties *)

(** [ancestors] are the parent, the parent of the parent, and so on up
    to a category without parent, each stored in the table. *)
Fixpoint is_chain (db : gmap N AssetCategory) (self : AssetCategory)
    (ancestors : list AssetCategory) : Prop :=
  match ancestors with
  | [] => parent self = None
  | p :: rest =>
      parent self = Some (id p) /\ db !! id p = Some p
      /\ is_chain db p rest
  end.

(** Every category of [ids] is stored and has its parent in [ids]. *)
Definition closed_under_parent (db : gmap N AssetCategory) (ids : gset N)
    : Prop :=
  forall pk, pk ∈ ids ->
    exists row p, db !! pk = Some row /\ parent row = Some p /\ p ∈ ids.


End CategoryPaths.

(** ** The analytics helpers ([assets/utils.py]) *)

Module Utils.

(** The names that [assets/utils.py] binds at module level: its imports,
    [logger], [User] and its functions. *)
Definition module_names : list string :=
  ["get_user_model"; "Count"; "Sum"; "Avg"; "Q"; "F"; "timezone";
   "timedelta"; "datetime"; "logging"; "Transaction"; "Asset"; "logger";
   "User"; "get_asset_distribution_data"; "get_transaction_volume_data";
   "get_portfolio_performance_data"; "get_asset_type_performance";
   "get_top_assets_by_volume"; "get_transaction_trends";
   "get_user_growth_data"; "get_market_overview"].

(** Loading a global name that the module does not bind (and that is no
    built-in) raises [NameError]. *)
Definition load_name (n : string) : result unit :=
  if bool_decide (n ∈ module_names) then Ok tt
  else Raise (mk_exn NameError ("name '" ++ n ++ "' is not defined")).

Fixpoint load_names (ns : list string) : result unit :=
  match ns with
  | [] => Ok tt
  | n :: rest => bind (load_name n) (fun _ => load_names rest)
  end.

(** [get_asset_type_performance]: the names of the query expression are
    loaded in the order of evaluation, then the queryset is evaluated and
    its rows converted ([query]); the handler is the one of all
    helpers. *)
Definition get_asset_type_performance (query : result (list json))
    : list json * list log_record :=
  Errors.helper_try "get_asset_type_performance"
    (bind (load_names ["Asset"; "Sum"; "Q"; "Avg"; "Count"; "Q"; "Count";
                       "Sum"; "Min"; "Max"])
          (fun _ => query)).

(** [get_market_overview]: the same for its first query; the handler
    returns the empty object. *)
Definition get_market_overview (queries : result json)
    : json * list log_record :=
  match bind (load_names ["Asset"; "Count"; "Sum"; "Avg"; "Min"; "Max"])
          (fun _ => queries) with
  | Ok overview => (overview, [])
  | Raise e =>
      (JObj [], [(ERROR, "Error in get_market_overview: " ++ exn_str e)])
  end.

(** [get_top_assets_by_volume], whose names are all bound. *)
Definition get_top_assets_by_volume (query : result (list json))
    : list json * list log_record :=
  Errors.helper_try "get_top_assets_by_volume"
    (bind (load_names ["Asset"; "Sum"; "Q"; "Count"; "Q"; "Sum"; "Q";
                       "Sum"; "Q"; "Avg"; "Q"])
          (fun _ => query)).

(** *** [get_user_growth_data] *)

Section Growth.

(** Python floats, and [daily_count / cumulative_total * 100] on them. *)
Variable float : Type.
Variable percent : Z -> Z -> float.

(** The growth rate is a float, or the integer 0. *)
Inductive number : Type :=
| int_number (z : Z)
| float_number (f : float).

(** An entry of the result; dates are day numbers. *)
Record GrowthEntry : Type := mk_growth_entry {
  date : Z;
  new_users : Z;
  total_users : Z;
  growth_rate : number
}.

(** [{item['date']: item['count'] for item in users_by_date}] *)
Definition registration_dict (users_by_date : list (Z * Z)) : gmap Z Z :=
  fold_left (fun d item => <[item.1 := item.2]> d) users_by_date ∅.

(** The [while current_date <= end_date_only] loop; [fuel] bounds the
    number of its rounds. *)
Fixpoint growth_loop (fuel : nat) (registrations : gmap Z Z)
    (end_date_only current_date cumulative_total : Z)
    : list GrowthEntry :=
  match fuel with
  | O => []
  | S fuel' =>
      if (current_date <=? end_date_only)%Z then
        let daily_count := default 0 (registrations !! current_date) in
        let cumulative_total := cumulative_total + daily_count in
        {| date := current_date;
           new_users := daily_count;
           total_users := cumulative_total;
           growth_rate :=
             if (cumulative_total >? 0)%Z
             then float_number (percent daily_count cumulative_total)
             else int_number 0 |}
        :: growth_loop fuel' registrations end_date_only
             (current_date + 1) cumulative_total
      else []
  end.

(** [get_user_growth_data]; [queries] is the outcome of its two queries,
    the registrations per day and the number of users before the period,
    [start_date] and [end_date] are the days of the two instants. *)
Definition get_user_growth_data (queries : result (list (Z * Z) * Z))
    (start_date end_date : Z) : list GrowthEntry * list log_record :=
  match queries with
  | Ok (users_by_date, total_users_before) =>
      (growth_loop (Z.to_nat (end_date - start_date + 1))
         (registration_dict users_by_date) end_date start_date
         total_users_before,
       [])
  | Raise e =>
      ([], [(ERROR, "Error in get_user_growth_data: " ++ exn_str e)])
  end.


End Growth.

End Utils.

(** ** Request logging ([RequestLoggingMiddleware]) *)

Module RequestLogging.

(** What [json.loads(request.body.decode('utf-8'))] makes of a body: the
    body is empty, it is a JSON object, it is another JSON value, or one
    of the two decoders raises. *)
Inductive request_body : Type :=
| body_empty
| body_object (items : list (string * json))
| body_other_json (v : json)
| body_not_json.

(** A request with the two attributes that the middleware sets; times
    are seconds. *)
Record HttpRequest : Type := mk_request {
  path : string;
  method : string;
  body : request_body;
  start_time : option Q;
  request_id : option string
}.

(** The log records of the middleware, with their parts. *)
Inductive access_log : Type :=
| LogRequest (request_id method path : string)
| LogBody (request_id : string) (safe_body : list (string * json))
| LogNonJson (request_id : string)
| LogResponse (request_id : string) (status : Z) (started finished : Q).

Definition sensitive_paths : list string := ["/auth/"; "/login/"; "/signup/"].

Definition sensitive_keys : list string :=
  ["password"; "token"; "otp_code"; "verification_code";
   "confirm_password"].

(** [any(sensitive in request.path for sensitive in [...])] *)
Definition on_sensitive_path (p : string) : bool :=
  existsb (fun sensitive => str_in sensitive p) sensitive_paths.

(** [{k: v for k, v in body.items() if k not in [...]}] *)
Definition safe_items (items : list (string * json))
    : list (string * json) :=
  List.filter (fun kv => negb (bool_decide (kv.1 ∈ sensitive_keys))) items.

(** ['...' object has no attribute 'items'] *)
Definition no_items : exn :=
  mk_exn (OtherException "builtins")
    "AttributeError: object has no attribute 'items'".

(** [RequestLoggingMiddleware.process_request]; [now] is [time.time()],
    [new_id] the first eight characters of a fresh UUID.  The method
    returns [None] in every case that returns: the result is the request
    with its new attributes and the records written. *)
Definition process_request (now : Q) (new_id : string)
    (request : HttpRequest) : result (HttpRequest * list access_log) :=
  if String.prefix "/admin/" (path request)
     || String.prefix "/static/" (path request)
  then Ok (request, [])
  else
    let request :=
      mk_request (path request) (method request) (body request)
        (Some now) (Some new_id) in
    let logged := [LogRequest new_id (method request) (path request)] in
    if on_sensitive_path (path request) then Ok (request, logged)
    else
      match body request with
      | body_empty => Ok (request, logged)
      | body_object items =>
          match safe_items items with
          | [] => Ok (request, logged)
          | safe_body =>
              Ok (request, (logged ++ [LogBody new_id safe_body])%list)
          end
      | body_other_json _ => Raise no_items
      | body_not_json => Ok (request, (logged ++ [LogNonJson new_id])%list)
      end.

(** [RequestLoggingMiddleware.process_response]: the records written;
    the response itself is returned as it came. *)
Definition process_response (now : Q) (request : HttpRequest)
    (status : Z) : list access_log :=
  match start_time request, request_id request with
  | Some started, Some rid => [LogResponse rid status started now]
  | _, _ => []
  end.

End RequestLogging.

(** ** Reports ([Report]) *)

Module Reports.

Inductive ReportType : Type :=
| PORTFOLIO_SUMMARY | PERFORMANCE | TAX_REPORT | TRANSACTION_HISTORY
| ASSET_ALLOCATION | MONTHLY_SUMMARY | QUARTERLY_SUMMARY | YEARLY_SUMMARY
| CUSTOM.

Inductive ReportStatus : Type := GENERATING | COMPLETED | FAILED | EXPIRED.

Inductive ReportFormat : Type := JSON | PDF | CSV | XLSX.

(** A [Report] instance, and a row of the report table. *)
Record Report : Type := mk_report {
  id : uuid;
  created_at : Z;
  updated_at : Z;
  is_active : bool;
  user : uuid;
  title : string;
  description : string;
  report_type : ReportType;
  data : json;
  parameters : json;
  format : ReportFormat;
  status : ReportStatus;
  generated_at : Z;
  completed_at : option Z;
  expires_at : option Z;
  period_start : option Z;
  period_end : option Z;
  file : option string;
  file_size : option Z
}.

Definition set_status (v : ReportStatus) (r : Report) : Report :=
  mk_report (id r) (created_at r) (updated_at r) (is_active r) (user r)
    (title r) (description r) (report_type r) (data r) (parameters r)
    (format r) v (generated_at r) (completed_at r) (expires_at r)
    (period_start r) (period_end r) (file r) (file_size r).

Definition set_completed_at (v : option Z) (r : Report) : Report :=
  mk_report (id r) (created_at r) (updated_at r) (is_active r) (user r)
    (title r) (description r) (report_type r) (data r) (parameters r)
    (format r) (status r) (generated_at r) v (expires_at r)
    (period_start r) (period_end r) (file r) (file_size r).

Definition set_data (v : json) (r : Report) : Report :=
  mk_report (id r) (created_at r) (updated_at r) (is_active r) (user r)
    (title r) (description r) (report_type r) v (parameters r)
    (format r) (status r) (generated_at r) (completed_at r) (expires_at r)
    (period_start r) (period_end r) (file r) (file_size r).

(** [Report.is_expired]; [now] is [timezone.now()]. *)
Definition is_expired (self : Report) (now : Z) : bool :=
  match expires_at self with
  | Some expires => now >? expires
  | None => false
  end.

(** Columns that the two [save(update_fields=...)] calls name. *)
Inductive column : Type := col_status | col_completed_at | col_data.

Definition write_column (self : Report) (row : Report) (c : column)
    : Report :=
  match c with
  | col_status => set_status (status self) row
  | col_completed_at => set_completed_at (completed_at self) row
  | col_data => set_data (data self) row
  end.

(** [self.save(update_fields=...)]: an UPDATE of the named columns of the
    row with the primary key of [self]; it fails when no row is
    affected. *)
Definition save_update_fields (db : gmap N Report) (self : Report)
    (update_fields : list column) : result (gmap N Report) :=
  match db !! id self with
  | Some row =>
      Ok (<[id self := fold_left (write_column self) update_fields row]> db)
  | None =>
      Raise (mk_exn DatabaseError
               "Save with update_fields did not affect any rows.")
  end.

(** [Report.mark_completed] *)
Definition mark_completed (db : gmap N Report) (self : Report) (now : Z)
    : result (Report * gmap N Report) :=
  let self := set_status COMPLETED self in
  let self := set_completed_at (Some now) self in
  bind (save_update_fields db self [col_status; col_completed_at])
       (fun db' => Ok (self, db')).

(** [Report.mark_failed]; [error_message] is [None] when the argument is
    left out. *)
Definition mark_failed (db : gmap N Report) (self : Report)
    (error_message : option string) : result (Report * gmap N Report) :=
  let self := set_status FAILED self in
  let self :=
    match error_message with
    | Some msg =>
        if str_truthy msg then set_data (JObj [("error", JStr msg)]) self
        else self
    | None => self
    end in
  bind (save_update_fields db self [col_status; col_data])
       (fun db' => Ok (self, db')).

(** *** Vocabulary of the properties *)

(** Two rows agree on every column other than [status], [completed_at]
    and [data]. *)
Definition same_except_marks (a b : Report) : Prop :=
  id a = id b /\ created_at a = created_at b /\ updated_at a = updated_at b
  /\ is_active a = is_active b /\ user a = user b /\ title a = title b
  /\ description a = description b /\ report_type a = report_type b
  /\ parameters a = parameters b /\ format a = format b
  /\ generated_at a = generated_at b /\ expires_at a = expires_at b
  /\ period_start a = period_start b /\ period_end a = period_end b
  /\ file a = file b /\ file_size a = file_size b.

End Reports.

(** ** More concrete inputs *)

Module MoreSamples.


Definition first_row : Transactions.Transaction :=
  Samples.completed 10 1 Transactions.BUY 30%Q.

Definition alice_request : Accounting.Requester :=
  Accounting.mk_requester Samples.alice true false.

(** A superuser who is not staff. *)
Definition root_request : Accounting.Requester :=
  Accounting.mk_requester (Transactions.mk_user 9 "root" false) true true.

Definition no_params : Accounting.QueryParams :=
  Accounting.mk_query_params None None None.

(** An update that only sets the quantity to 5. *)
Definition new_quantity : Accounting.UpdateData :=
  Accounting.mk_update_data None None None (Some 5%Q) None None None None
    None None None None None None None None None.

(** An update that only sets the limit price to null. *)
Definition null_limit_price : Accounting.UpdateData :=
  Accounting.mk_update_data None None None None None None None None
    (Some None) None None None None None None None None.

Definition beta_asset : Assets.Asset :=
  Assets.mk_asset 8 0 0 true "Beta" "BETA" Assets.STOCK None "" "" ""
    10%Q "USD" None Assets.MEDIUM None None Assets.ACTIVE "" None None
    None None.

(** Upper case of the letters a to z. *)
Definition upper_char (c : Ascii.ascii) : Ascii.ascii :=
  let n := Ascii.nat_of_ascii c in
  if (97 <=? n)%nat && (n <=? 122)%nat
  then Ascii.ascii_of_nat (n - 32)
  else c.

Fixpoint upper_ascii (s : string) : string :=
  match s with
  | EmptyString => EmptyString
  | String c rest => String (upper_char c) (upper_ascii rest)
  end.

Definition root_category : Category.AssetCategory :=
  Category.mk_category 2 0 0 true "Stocks" "" None "" "#007bff".

Definition child_category : Category.AssetCategory :=
  Category.mk_category 1 0 0 true "Tech" "" (Some 2%N) "" "#007bff".

Definition category_table : gmap N Category.AssetCategory :=
  {[ 1%N := child_category; 2%N := root_category ]}.

(** The root with the child as its parent, and the table with the two
    categories as each other's parent. *)
Definition looped_root : Category.AssetCategory :=
  Category.mk_category 2 0 0 true "Stocks" "" (Some 1%N) "" "#007bff".

Definition looped_table : gmap N Category.AssetCategory :=
  {[ 1%N := child_category; 2%N := looped_root ]}.

Definition signup : RequestLogging.HttpRequest :=
  RequestLogging.mk_request "/api/assets/" "POST"
    (RequestLogging.body_object
       [("name", JStr "Acme"); ("password", JStr "secret")])
    None None.

Definition admin_page : RequestLogging.HttpRequest :=
  RequestLogging.mk_request "/admin/login" "GET" RequestLogging.body_empty
    None None.

(** A report that is being generated, with an expiry at instant 500. *)
Definition draft_report : Reports.Report :=
  Reports.mk_report 20 0 0 true 1 "Monthly" "" Reports.MONTHLY_SUMMARY
    (JObj []) (JObj []) Reports.JSON Reports.GENERATING 0 None (Some 500)
    None None None None.

Definition report_table : gmap N Reports.Report :=
  {[ 20%N := draft_report ]}.

Definition array_body : RequestLogging.HttpRequest :=
  RequestLogging.mk_request "/api/assets/" "POST"
    (RequestLogging.body_other_json (JList [JInt 1; JInt 2])) None None.

End MoreSamples.

(** * Properties *)

(** ** Facts about Decimal comparisons *)

Lemma dec_lt_spec (a b : Decimal) : dec_lt a b = true <-> (a < b)%Q.
Proof.
  unfold dec_lt. rewrite negb_true_iff.
  destruct (Qle_bool b a) eqn:E.
  - apply Qle_bool_iff in E. split; [discriminate | intros H; exfalso; lra].
  - split; [intros _ | reflexivity].
    apply Qnot_le_lt. intros H. apply Qle_bool_iff in H. congruence.
Qed.



Lemma dec_is_zero_spec (a : Decimal) : dec_is_zero a = true <-> (a == 0)%Q.
Proof. apply Qeq_bool_iff. Qed.

Lemma or_zero_value (d : option Decimal) :
  (or_zero d == match d with Some v => v | None => 0 end)%Q.
Proof.
  destruct d as [v|]; simpl; [|reflexivity].
  destruct (dec_is_zero v) eqn:E; [|reflexivity].
  apply dec_is_zero_spec in E. symmetry. exact E.
Qed.


(** ** Asset categories *)

Section CategoryFacts.
Import Category.

Implicit Types (db : gmap N AssetCategory) (d v : CategoryData).

Lemma same_instance_true (other : option uuid) (self : AssetCategory) :
  same_instance other self = true <-> other = Some (id self).
Proof.
  destruct other as [pk|]; simpl.
  - rewrite N.eqb_eq. split; [intros ->; reflexivity | congruence].
  - split; discriminate.
Qed.

Lemma validate_parent_ok (instance : option AssetCategory)
    (value r : option uuid) :
  validate_parent instance value = Ok r ->
  r = value /\ forall inst, instance = Some inst -> value <> Some (id inst).
Proof.
  unfold validate_parent.
  destruct value as [pk|], instance as [inst|]; simpl.
  - destruct (N.eqb pk (id inst)) eqn:E; [discriminate|].
    intros [= <-]. split; [reflexivity|].
    intros inst' [= <-] [= ->]. rewrite N.eqb_refl in E. discriminate.
  - intros [= <-]. split; [reflexivity | discriminate].
  - intros [= <-]. split; [reflexivity | discriminate].
  - intros [= <-]. split; [reflexivity | discriminate].
Qed.

(** A validated [parent] names an existing row, and not the instance that
    is being updated. *)
Lemma is_valid_parent db (instance : option AssetCategory) d v (p : uuid) :
  is_valid db instance d = Ok v ->
  d_parent v = Some (Some p) ->
  is_Some (db !! p) /\
  forall inst, instance = Some inst -> p <> id inst.
Proof.
  unfold is_valid, bind.
  destruct (match d_name d with Some _ => _ | None => _ end);
    [|discriminate].
  destruct (d_parent d) as [raw|]; simpl.
  - unfold validate_parent_field.
    destruct raw as [pk|].
    + destruct (db !! pk) eqn:Hpk; [|discriminate].
      destruct (validate_parent instance (Some pk)) as [r|] eqn:Hv;
        [|discriminate].
      apply validate_parent_ok in Hv as [-> Hne].
      intros [= <-]. simpl. intros [= <-].
      split; [by rewrite Hpk|].
      intros inst Hi ->. by eapply Hne.
    + destruct (validate_parent instance None) as [r|] eqn:Hv;
        [|discriminate].
      apply validate_parent_ok in Hv as [-> _].
      intros [= <-]. simpl. discriminate.
  - intros [= <-]. simpl. discriminate.
Qed.

Lemma get_object_lookup db (pk : uuid) (inst : AssetCategory) :
  get_object db pk = Some inst -> db !! pk = Some inst.
Proof.
  unfold get_object. destruct (db !! pk) as [row|]; [|discriminate].
  destruct (is_active row); [congruence | discriminate].
Qed.

Lemma create_view_keeps db (new_id : uuid) (now : Z) d :
  no_self_parent db -> no_self_parent (create_view db new_id now d).2.
Proof.
  intros Hinv. unfold create_view.
  destruct (is_valid db None d) as [v|] eqn:Hv; [|exact Hinv].
  destruct (db !! new_id) eqn:Hfresh; [exact Hinv|]. simpl.
  intros pk row [[<- <-]|[_ Hrow]]%lookup_insert_Some; [|by apply Hinv].
  split; [reflexivity|]. simpl.
  destruct (d_parent v) as [[p|]|] eqn:Hp; simpl; try discriminate.
  intros [= ->].
  destruct (is_valid_parent _ _ _ _ _ Hv Hp) as [[x Hx] _]. congruence.
Qed.

Lemma update_view_keeps db (pk : uuid) (now : Z) d :
  no_self_parent db -> no_self_parent (update_view db pk now d).2.
Proof.
  intros Hinv. unfold update_view.
  destruct (get_object db pk) as [inst|] eqn:Hget; [|exact Hinv].
  apply get_object_lookup in Hget.
  destruct (Hinv _ _ Hget) as [Hid Hpar].
  destruct (is_valid db (Some inst) d) as [v|] eqn:Hv; [|exact Hinv]. simpl.
  intros pk' row [[<- <-]|[_ Hrow]]%lookup_insert_Some; [|by apply Hinv].
  split; [exact Hid|]. simpl.
  destruct (d_parent v) as [[p|]|] eqn:Hp; simpl; try discriminate.
  - intros [= ->].
    destruct (is_valid_parent _ _ _ _ _ Hv Hp) as [_ Hne].
    apply (Hne inst eq_refl). congruence.
  - exact Hpar.
Qed.

Lemma destroy_view_keeps db (pk : uuid) :
  no_self_parent db -> no_self_parent (destroy_view db pk).2.
Proof.
  intros Hinv. unfold destroy_view.
  destruct (get_object db pk); [|exact Hinv]. simpl.
  intros pk' row [Hrow _]%map_lookup_filter_Some. by apply Hinv.
Qed.

Lemma api_step_keeps db db' :
  api_step db db' -> no_self_parent db -> no_self_parent db'.
Proof.
  intros [new_id now d|pk now d|pk] Hinv;
    auto using create_view_keeps, update_view_keeps, destroy_view_keeps.
Qed.

Lemma reachable_no_self_parent db : reachable db -> no_self_parent db.
Proof.
  induction 1 as [|db db' _ IH Hstep].
  - intros pk row Hrow. by rewrite lookup_empty in Hrow.
  - eauto using api_step_keeps.
Qed.

(** C6.  Validation rejects a category whose parent is the category
    itself: [AssetCategory.clean] raises exactly for such a category,
    [AssetCategorySerializer.validate_parent] raises when the value is the
    instance under update, validated data never names the instance as its
    own parent, and in every table that the category endpoints produce
    from the empty table no row is its own parent. *)
Theorem category_is_never_its_own_parent :
  (forall c : AssetCategory,
     parent c = Some (id c) ->
     clean c = model_error "Category cannot be its own parent") /\
  (forall c : AssetCategory, clean c = Ok tt <-> parent c <> Some (id c)) /\
  (forall inst : AssetCategory,
     validate_parent (Some inst) (Some (id inst))
     = serializer_error "Category cannot be its own parent") /\
  (forall db inst d v,
     is_valid db (Some inst) d = Ok v ->
     d_parent v <> Some (Some (id inst))) /\
  (forall db, reachable db -> no_self_parent db).
Proof.
  split_and!.
  - intros c Hc. unfold clean.
    by rewrite (proj2 (same_instance_true _ _) Hc).
  - intros c. unfold clean. split.
    + intros Hok Hc.
      rewrite (proj2 (same_instance_true _ _) Hc) in Hok. discriminate.
    + intros Hne.
      destruct (same_instance (parent c) c) eqn:E; [|reflexivity].
      apply same_instance_true in E. contradiction.
  - intros inst. unfold validate_parent.
    by rewrite (proj2 (same_instance_true _ _) eq_refl).
  - intros db inst d v Hv Hp.
    destruct (is_valid_parent _ _ _ _ _ Hv Hp) as [_ Hne].
    by apply (Hne inst).
  - apply reachable_no_self_parent.
Qed.

Lemma category_is_never_its_own_parent_witness :
  clean Samples.own_parent
  = model_error "Category cannot be its own parent"
  /\ d_parent Samples.equities <> Some (Some (id Samples.own_parent))
  /\ no_self_parent (create_view ∅ 4 0 Samples.equities).2.
Proof.
  destruct category_is_never_its_own_parent as (H1 & _ & _ & H4 & H5).
  split_and!.
  - apply H1. reflexivity.
  - apply (H4 ∅ Samples.own_parent Samples.equities Samples.equities).
    vm_compute. reflexivity.
  - apply H5.
    eapply reach_step; [apply reach_empty | apply step_create].
Defined.

End CategoryFacts.

(** ** Assets *)

Section AssetFacts.
Import Assets.

Implicit Types (db : gmap N Asset) (self row : Asset) (p : Decimal).

Local Arguments attr_lt : simpl never.
Local Arguments truthy : simpl never.


(** [Asset.clean] raises for a day high below the day low when neither of
    the two is zero. *)
Lemma clean_rejects_nonzero_high_below_low self (h l : Decimal) :
  day_high self = Some h -> day_low self = Some l ->
  ~ (h == 0)%Q -> ~ (l == 0)%Q -> (h < l)%Q ->
  clean self = model_error "Day high cannot be less than day low".
Proof.
  intros Hh Hl Hh0 Hl0 Hlt. unfold clean, truthy, attr_lt. rewrite Hh, Hl.
  destruct (dec_is_zero h) eqn:Eh; [by apply dec_is_zero_spec in Eh|].
  destruct (dec_is_zero l) eqn:El; [by apply dec_is_zero_spec in El|].
  by rewrite (proj2 (dec_lt_spec h l) Hlt).
Qed.







(** C2 at the input [day_high = 0], [day_low = 5]: both attributes are
    set and the day high is strictly below the day low, yet
    [Asset.clean] raises nothing, because a day high of zero is falsy in
    the guard [self.day_high and self.day_low and ...]. *)
Theorem clean_accepts_zero_day_high :
  day_high Samples.zero_high_asset = Some 0%Q
  /\ day_low Samples.zero_high_asset = Some 5%Q
  /\ (0 < 5)%Q
  /\ clean Samples.zero_high_asset = Ok tt.
Proof. repeat split. Qed.

End AssetFacts.

(** ** Transactions *)

Section TransactionFacts.
Import Transactions.

Implicit Types (db : list Transaction) (t self : Transaction) (now : Z).

Lemma truthy_false (price : option Decimal) :
  truthy price = false <-> absent_or_zero price.
Proof.
  unfold truthy, absent_or_zero. destruct price as [v|].
  - rewrite negb_false_iff, dec_is_zero_spec. split.
    + intros Hv. right. by exists v.
    + intros [?|(v' & [= <-] & Hv)]; [discriminate | exact Hv].
  - split; [by left | reflexivity].
Qed.

Lemma in_limit_orders (o : OrderType) :
  bool_decide (o ∈ [LIMIT; STOP_LIMIT]) = true <-> needs_limit_price o.
Proof.
  unfold needs_limit_price.
  destruct o; cbn; split; intros H; try reflexivity; try discriminate;
    try (by left); try (by right); destruct H; discriminate.
Qed.

Lemma in_stop_orders (o : OrderType) :
  bool_decide (o ∈ [STOP; STOP_LIMIT]) = true <-> needs_stop_price o.
Proof.
  unfold needs_stop_price.
  destruct o; cbn; split; intros H; try reflexivity; try discriminate;
    try (by left); try (by right); destruct H; discriminate.
Qed.

Lemma limit_guard (o : OrderType) (price : option Decimal) :
  bool_decide (o ∈ [LIMIT; STOP_LIMIT]) && negb (truthy price) = true
  <-> needs_limit_price o /\ absent_or_zero price.
Proof.
  rewrite andb_true_iff, negb_true_iff, in_limit_orders, truthy_false.
  reflexivity.
Qed.

Lemma stop_guard (o : OrderType) (price : option Decimal) :
  bool_decide (o ∈ [STOP; STOP_LIMIT]) && negb (truthy price) = true
  <-> needs_stop_price o /\ absent_or_zero price.
Proof.
  rewrite andb_true_iff, negb_true_iff, in_stop_orders, truthy_false.
  reflexivity.
Qed.

(** The three outcomes of the checks that [Transaction.clean] and
    [TransactionDetailSerializer.validate] share. *)
Lemma clean_cases self now :
  (needs_limit_price (order_type self)
   /\ absent_or_zero (limit_price self)
   /\ clean self now = model_error limit_price_msg)
  \/ (~ (needs_limit_price (order_type self)
         /\ absent_or_zero (limit_price self))
      /\ needs_stop_price (order_type self)
      /\ absent_or_zero (stop_price self)
      /\ clean self now = model_error stop_price_msg)
  \/ (~ (needs_limit_price (order_type self)
         /\ absent_or_zero (limit_price self))
      /\ ~ (needs_stop_price (order_type self)
            /\ absent_or_zero (stop_price self))
      /\ clean self now
         = if transaction_date self >? now
           then model_error future_date_msg else Ok tt).
Proof.
  unfold clean.
  destruct (bool_decide (order_type self ∈ [LIMIT; STOP_LIMIT])
            && negb (truthy (limit_price self))) eqn:El.
  { apply limit_guard in El as [? ?]. by left. }
  assert (~ (needs_limit_price (order_type self)
             /\ absent_or_zero (limit_price self))) as Hl.
  { intros H. apply limit_guard in H. congruence. }
  destruct (bool_decide (order_type self ∈ [STOP; STOP_LIMIT])
            && negb (truthy (stop_price self))) eqn:Es.
  { apply stop_guard in Es as [? ?]. right; left. done. }
  assert (~ (needs_stop_price (order_type self)
             /\ absent_or_zero (stop_price self))) as Hs.
  { intros H. apply stop_guard in H. congruence. }
  right; right. done.
Qed.


Lemma with_request_user_keeps (u : option User) (d : DetailData) :
  dd_order_type (with_request_user u d) = dd_order_type d
  /\ dd_limit_price (with_request_user u d) = dd_limit_price d
  /\ dd_stop_price (with_request_user u d) = dd_stop_price d
  /\ dd_transaction_date (with_request_user u d) = dd_transaction_date d.
Proof.
  unfold with_request_user.
  destruct (dd_user_id d), u; repeat split; reflexivity.
Qed.

Lemma detail_validate_cases (u : option User) now (d : DetailData) :
  let o := default MARKET (dd_order_type d) in
  (needs_limit_price o /\ absent_or_zero (dd_limit_price d)
   /\ detail_validate u now d = serializer_error limit_price_msg)
  \/ (~ (needs_limit_price o /\ absent_or_zero (dd_limit_price d))
      /\ needs_stop_price o /\ absent_or_zero (dd_stop_price d)
      /\ detail_validate u now d = serializer_error stop_price_msg)
  \/ (~ (needs_limit_price o /\ absent_or_zero (dd_limit_price d))
      /\ ~ (needs_stop_price o /\ absent_or_zero (dd_stop_price d))
      /\ detail_validate u now d
         = match dd_transaction_date d with
           | Some date =>
               if date >? now then serializer_error future_date_msg
               else Ok (with_request_user u d)
           | None => Ok (with_request_user u d)
           end).
Proof.
  intros o. unfold detail_validate.
  destruct (with_request_user_keeps u d) as (-> & -> & -> & ->).
  fold o.
  destruct (bool_decide (o ∈ [LIMIT; STOP_LIMIT])
            && negb (truthy (dd_limit_price d))) eqn:El.
  { apply limit_guard in El as [? ?]. by left. }
  assert (~ (needs_limit_price o /\ absent_or_zero (dd_limit_price d)))
    as Hl.
  { intros H. apply limit_guard in H. congruence. }
  destruct (bool_decide (o ∈ [STOP; STOP_LIMIT])
            && negb (truthy (dd_stop_price d))) eqn:Es.
  { apply stop_guard in Es as [? ?]. right; left. done. }
  assert (~ (needs_stop_price o /\ absent_or_zero (dd_stop_price d)))
    as Hs.
  { intros H. apply stop_guard in H. congruence. }
  right; right. done.
Qed.




(** The serializer of the create action has no check of the order type:
    a LIMIT order without a limit price is created. *)
Remark create_view_accepts_limit_order_without_price :
  exists t logs db',
    create_view None Samples.asset_keys [] Samples.alice 3 100
      Samples.limit_order_without_price
    = (Created t, logs, db')
    /\ order_type t = LIMIT /\ limit_price t = None.
Proof.
  do 3 eexists. split; [vm_compute; reflexivity | split; reflexivity].
Qed.

(** C4.  A transaction dated strictly after the current time fails
    [Transaction.clean] with a validation error, and so does data with
    such a date in [TransactionDetailSerializer.validate]; a date at or
    before the current time never raises the date error, and validation
    then succeeds unless a required price is missing. *)
Theorem future_date_rejected self now (u : option User) (d : DetailData)
    (date : Z) :
  (transaction_date self > now ->
   exists msg, clean self now = model_error msg)
  /\ (transaction_date self <= now ->
      clean self now <> model_error future_date_msg
      /\ (clean self now = Ok tt
          \/ clean self now = model_error limit_price_msg
          \/ clean self now = model_error stop_price_msg))
  /\ (dd_transaction_date d = Some date -> date > now ->
      exists msg, detail_validate u now d = serializer_error msg)
  /\ (dd_transaction_date d = Some date -> date <= now ->
      detail_validate u now d <> serializer_error future_date_msg
      /\ (detail_validate u now d = Ok (with_request_user u d)
          \/ detail_validate u now d = serializer_error limit_price_msg
          \/ detail_validate u now d = serializer_error stop_price_msg)).
Proof.
  split_and!.
  - intros Hlate.
    destruct (clean_cases self now)
      as [(_ & _ & ->)|[(_ & _ & _ & ->)|(_ & _ & ->)]]; eauto.
    rewrite (proj2 (Z.gtb_gt _ _)) by lia. eauto.
  - intros Hpast.
    destruct (clean_cases self now)
      as [(_ & _ & ->)|[(_ & _ & _ & ->)|(_ & _ & ->)]].
    + split; [discriminate | auto].
    + split; [discriminate | auto].
    + destruct (transaction_date self >? now) eqn:E;
        [apply Z.gtb_gt in E; lia|].
      split; [discriminate | auto].
  - intros Hdate Hlate.
    destruct (detail_validate_cases u now d)
      as [(_ & _ & ->)|[(_ & _ & _ & ->)|(_ & _ & ->)]]; eauto.
    rewrite Hdate, (proj2 (Z.gtb_gt _ _)) by lia. eauto.
  - intros Hdate Hpast.
    destruct (detail_validate_cases u now d)
      as [(_ & _ & ->)|[(_ & _ & _ & ->)|(_ & _ & ->)]].
    + split; [discriminate | auto].
    + split; [discriminate | auto].
    + rewrite Hdate.
      destruct (date >? now) eqn:E; [apply Z.gtb_gt in E; lia|].
      split; [discriminate | auto].
Qed.


Lemma future_date_rejected_witness :
  (transaction_date Samples.market_order > 5
   /\ exists msg, clean Samples.market_order 5 = model_error msg)
  /\ (transaction_date Samples.market_order <= 200
      /\ clean Samples.market_order 200 <> model_error future_date_msg)
  /\ (dd_transaction_date Samples.buy_detail = Some 90
      /\ exists msg,
           detail_validate None 5 Samples.buy_detail
           = serializer_error msg)
  /\ (detail_validate None 200 Samples.buy_detail
      <> serializer_error future_date_msg).
Proof.
  assert (transaction_date Samples.market_order > 5) as H1 by reflexivity.
  assert (transaction_date Samples.market_order <= 200) as H2
    by discriminate.
  assert (dd_transaction_date Samples.buy_detail = Some 90) as H3
    by reflexivity.
  split; [|split; [|split]].
  - split; [exact H1|].
    apply (proj1 (future_date_rejected Samples.market_order 5 None
                    Samples.buy_detail 90) H1).
  - split; [exact H2|].
    apply (proj1 (proj2 (future_date_rejected Samples.market_order 200 None
                           Samples.buy_detail 90)) H2).
  - split; [exact H3|].
    apply (proj1 (proj2 (proj2 (future_date_rejected Samples.market_order 5
                                  None Samples.buy_detail 90))) H3).
    reflexivity.
  - apply (proj2 (proj2 (proj2 (future_date_rejected Samples.market_order
                                  200 None Samples.buy_detail 90))) H3).
    discriminate.
Defined.

Lemma In_upsert (row : Transaction) db : In row (upsert row db).
Proof.
  induction db as [|r db IH]; cbn; [by left|].
  destruct (N.eqb (id r) (id row)); [by left | by right].
Qed.

(** [Transaction.save] stores the instance with its total filled in. *)
Lemma save_ok (fault : option exn) db self t db' :
  save fault db self = Ok (t, db') ->
  t = fill_total_amount self /\ In t db'.
Proof.
  unfold save. destruct fault; [discriminate|].
  intros [= <- <-]. split; [reflexivity | apply In_upsert].
Qed.





(** C5.  Creating a transaction with a quantity of zero or less fails:
    the serializer raises a validation error that names [quantity], the
    view answers 400, and the table is unchanged. *)
Theorem create_rejects_non_positive_quantity (fault : option exn)
    (assets : gset N) db (u : User) (new_id : uuid) now (d : CreateData) :
  (cd_quantity d <= 0)%Q ->
  In "quantity" (map fst (field_errors assets d))
  /\ (exists msg,
        create_is_valid assets d = Raise (mk_exn DRFValidationError msg))
  /\ exists details logs,
       create_view fault assets db u new_id now d
       = (BadRequest "Failed to record transaction" details, logs, db)
       /\ create_status
            (BadRequest "Failed to record transaction" details)
          = HTTP_400_BAD_REQUEST.
Proof.
  intros Hq.
  assert (In "quantity" (map fst (field_errors assets d))) as Hin.
  { unfold field_errors. rewrite !map_app.
    apply in_or_app; right. apply in_or_app; left.
    unfold min_value.
    rewrite (proj2 (dec_lt_spec (cd_quantity d) (1 # 100000000))).
    - cbn. by left.
    - eapply Qle_lt_trans; [exact Hq | reflexivity]. }
  assert (exists msg,
            create_is_valid assets d = Raise (mk_exn DRFValidationError msg))
    as [msg Hmsg].
  { unfold create_is_valid.
    destruct (field_errors assets d) as [|fe errs]; [destruct Hin|]. eauto. }
  split; [exact Hin|]. split; [eauto|].
  unfold create_view, create_try. rewrite Hmsg. cbn. eauto.
Qed.


Lemma create_rejects_non_positive_quantity_witness :
  (cd_quantity Samples.zero_quantity_order <= 0)%Q
  /\ exists details logs,
       create_view None Samples.asset_keys Samples.ledger Samples.alice 3
         100 Samples.zero_quantity_order
       = (BadRequest "Failed to record transaction" details, logs,
          Samples.ledger).
Proof.
  assert ((cd_quantity Samples.zero_quantity_order <= 0)%Q) as Hq
    by apply Qle_refl.
  split; [exact Hq|].
  destruct (create_rejects_non_positive_quantity None Samples.asset_keys
              Samples.ledger Samples.alice 3 100
              Samples.zero_quantity_order Hq)
    as (_ & _ & details & logs & Hc & _).
  exists details, logs. exact Hc.
Defined.

End TransactionFacts.

(** ** The transaction summary *)

Section SummaryFacts.
Import Transactions.

Implicit Types (db rows : list Transaction).

Lemma filter_filter_andb (f g : Transaction -> bool) rows :
  List.filter g (List.filter f rows)
  = List.filter (fun t => f t && g t) rows.
Proof.
  induction rows as [|t rows IH]; cbn; [reflexivity|].
  destruct (f t); cbn; [destruct (g t)|]; by rewrite IH.
Qed.

Lemma sql_sum_from (acc : option Decimal) rows :
  (default 0 (fold_left
     (fun acc row =>
        match total_amount row, acc with
        | Some v, Some a => Some (a + v)
        | Some v, None => Some v
        | None, _ => acc
        end) rows acc)
   == default 0 acc + sum_total_amount rows)%Q.
Proof.
  revert acc. induction rows as [|t rows IH]; intros acc.
  - cbn. ring.
  - cbn [fold_left]. rewrite IH.
    change (sum_total_amount (t :: rows))
      with (default 0%Q (total_amount t) + sum_total_amount rows)%Q.
    generalize (sum_total_amount rows). intros s.
    unfold Decimal in *.
    destruct (total_amount t) as [v|], acc as [a|]; cbn; ring.
Qed.

(** The aggregate with its [or Decimal('0')] is the sum of the column. *)
Lemma or_zero_sql_sum rows :
  (or_zero (sql_sum total_amount rows) == sum_total_amount rows)%Q.
Proof.
  rewrite or_zero_value.
  transitivity (default 0%Q None + sum_total_amount rows)%Q;
    [exact (sql_sum_from None rows) | cbn; ring].
Qed.

(** C7.  In the response of the summary endpoint, [total_volume] is the
    sum of [total_amount] over the active COMPLETED transactions of the
    requesting user, [buy_volume] and [sell_volume] are that sum over the
    BUY and over the SELL transactions among them, and [net_volume] is
    [buy_volume - sell_volume]. *)
Theorem summary_volumes db (u : User) :
  (total_volume (summary db u).1
   == sum_total_amount (List.filter (completed_of u) db))%Q
  /\ (buy_volume (summary db u).1
      == sum_total_amount
           (List.filter
              (fun t => completed_of u t
                        && bool_decide (transaction_type t = BUY)) db))%Q
  /\ (sell_volume (summary db u).1
      == sum_total_amount
           (List.filter
              (fun t => completed_of u t
                        && bool_decide (transaction_type t = SELL)) db))%Q
  /\ net_volume (summary db u).1
     = (buy_volume (summary db u).1 - sell_volume (summary db u).1)%Q
  /\ total_transactions (summary db u).1
     = length (List.filter (completed_of u) db).
Proof.
  unfold summary. cbn [fst total_volume buy_volume sell_volume net_volume
                        total_transactions].
  rewrite !filter_filter_andb.
  split_and!; try reflexivity; apply or_zero_sql_sum.
Qed.

Lemma summary_volumes_witness :
  (total_volume (summary Samples.ledger Samples.alice).1 == 42)%Q
  /\ (buy_volume (summary Samples.ledger Samples.alice).1 == 30)%Q
  /\ (sell_volume (summary Samples.ledger Samples.alice).1 == 12)%Q.
Proof.
  destruct (summary_volumes Samples.ledger Samples.alice)
    as (Ht & Hb & Hs & _).
  split_and!.
  - rewrite Ht. reflexivity.
  - rewrite Hb. reflexivity.
  - rewrite Hs. reflexivity.
Defined.

End SummaryFacts.

(** ** Error handling *)

Section ErrorFacts.
Import Errors.

(** The body of the response of the middleware. *)
Lemma process_exception_generic (e : exn) :
  str_in "rest_framework" (module_of (exn_cls e)) = false ->
  process_exception e
  = (Some (mk_response 500
             (JObj [("error", JStr "An unexpected error occurred");
                    ("message",
                     JStr "Please try again later or contact support");
                    ("status_code", JInt 500)])),
     [(ERROR, "Unhandled exception: " ++ exn_str e)]).
Proof. unfold process_exception. by intros ->. Qed.

(** The classes of the Python and Django modules are not left to the
    framework. *)
Lemma builtin_and_django_not_rest_framework (e : exn) :
  match exn_cls e with
  | ValueError | TypeError | NameError | DjangoValidationError
  | DatabaseError | IntegrityError | Http404 => True
  | _ => False
  end ->
  str_in "rest_framework" (module_of (exn_cls e)) = false.
Proof. destruct (exn_cls e); intros H; try reflexivity; destruct H. Qed.

(** C8 as stated fails: a database error raised while
    [TransactionViewSet.create] saves the row is not a validation or
    permission error, yet the response is 400, not 500. *)
Lemma unexpected_exception_in_create_is_not_500 :
  ~ (unexpected Samples.lost_connection = true ->
     Transactions.create_status
       (Transactions.create_view (Some Samples.lost_connection)
          Samples.asset_keys [] Samples.alice 3 100 Samples.buy_order).1.1
     = HTTP_500_INTERNAL_SERVER_ERROR).
Proof.
  intros H. specialize (H eq_refl). vm_compute in H. discriminate H.
Qed.

(** C8, as the code has it.  An exception that reaches
    [ErrorHandlingMiddleware] and whose class is not defined in a
    [rest_framework] module (database errors and the built-in errors among
    them) is logged and answered with the generic 500 response; the
    exceptions of [rest_framework] are left to the framework.  Inside
    [TransactionViewSet.create] every exception, a validation error or
    not, is logged and answered with 400 and the error "Failed to record
    transaction", with the text of the exception only for staff.  Inside
    [get_asset_distribution_data] every exception is logged and replaced
    by an empty list. *)
Theorem exceptions_are_logged_and_answered :
  (forall e : exn,
     str_in "rest_framework" (module_of (exn_cls e)) = false ->
     exists resp,
       process_exception e
       = (Some resp, [(ERROR, "Unhandled exception: " ++ exn_str e)])
       /\ status_code resp = HTTP_500_INTERNAL_SERVER_ERROR
       /\ data resp
          = JObj [("error", JStr "An unexpected error occurred");
                  ("message",
                   JStr "Please try again later or contact support");
                  ("status_code", JInt 500)])
  /\ (forall e : exn,
        exn_cls e = DatabaseError \/ exn_cls e = IntegrityError
        \/ exn_cls e = ValueError \/ exn_cls e = TypeError
        \/ exn_cls e = NameError ->
        str_in "rest_framework" (module_of (exn_cls e)) = false)
  /\ (forall e : exn,
        exn_cls e = DRFValidationError \/ exn_cls e = DRFPermissionDenied
        \/ exn_cls e = DRFNotAuthenticated ->
        process_exception e = (None, []))
  /\ (forall (u : Transactions.User) (db : list Transactions.Transaction)
             (e : exn),
        Transactions.create_try u db (Raise e)
        = (Transactions.BadRequest "Failed to record transaction"
             (if Transactions.is_staff u then exn_str e
              else "Invalid transaction data"),
           [(INFO, "Recording new transaction for user: "
                   ++ Transactions.username u);
            (ERROR, "Error creating transaction: " ++ exn_str e)],
           db))
  /\ (forall e : exn,
        get_asset_distribution_data (Raise e)
        = ([], [(ERROR, "Error in get_asset_distribution_data: "
                        ++ exn_str e)])).
Proof.
  split_and!.
  - intros e He. rewrite (process_exception_generic e He). eauto.
  - intros e H. apply builtin_and_django_not_rest_framework.
    destruct H as [->|[->|[->|[->| ->]]]]; exact I.
  - intros e H. unfold process_exception.
    destruct H as [->|[->| ->]]; reflexivity.
  - reflexivity.
  - reflexivity.
Qed.

Lemma exceptions_are_logged_and_answered_witness :
  (exists resp,
     process_exception Samples.lost_connection
     = (Some resp,
        [(ERROR, "Unhandled exception: "
                 ++ exn_str Samples.lost_connection)])
     /\ status_code resp = HTTP_500_INTERNAL_SERVER_ERROR)
  /\ process_exception (mk_exn DRFValidationError "quantity: invalid")
     = (None, []).
Proof.
  destruct exceptions_are_logged_and_answered as (H1 & H2 & H3 & _ & _).
  split.
  - destruct (H1 Samples.lost_connection) as (resp & Hr & Hs & _).
    + apply H2. left. reflexivity.
    + exists resp. split; [exact Hr | exact Hs].
  - apply H3. left. reflexivity.
Defined.

End ErrorFacts.

(** ** Analytics *)

Section AnalyticsFacts.
Import Analytics.

Variables (src : GraphSources) (isoformat : Z -> string).






(** A [days] value that [int] rejects is answered with 400 by the
    [except ValueError] handler. *)
Remark graphs_rejects_non_integer_days (c : result SummaryCounts) (now : Z)
    (is_staff : bool) (raw : string) (graph_type : option string) :
  status_code
    (graphs src c isoformat now is_staff (days_not_int raw) graph_type).1
  = HTTP_400_BAD_REQUEST.
Proof. reflexivity. Qed.

End AnalyticsFacts.

Section AnalyticsExample.
Import Analytics.


End AnalyticsExample.

(** ** Amounts, volumes and updates of transactions *)

Section AccountingFacts.
Import Transactions Accounting.

Implicit Types (db : list Transaction) (t self : Transaction) (now : Z).

Lemma fill_total_amount_fields self :
  (exists v, total_amount (fill_total_amount self) = Some v)
  /\ transaction_type (fill_total_amount self) = transaction_type self
  /\ quantity (fill_total_amount self) = quantity self
  /\ price_per_unit (fill_total_amount self) = price_per_unit self
  /\ fees (fill_total_amount self) = fees self
  /\ tax (fill_total_amount self) = tax self
  /\ user (fill_total_amount self) = user self
  /\ order_type (fill_total_amount self) = order_type self
  /\ limit_price (fill_total_amount self) = limit_price self
  /\ id (fill_total_amount self) = id self.
Proof.
  unfold fill_total_amount.
  destruct (total_amount self) as [v|] eqn:Ht; cbn.
  - destruct (dec_is_zero v); cbn; rewrite ?Ht; eauto 12.
  - eauto 12.
Qed.

Lemma fill_total_amount_truthy self :
  truthy (total_amount self) = true -> fill_total_amount self = self.
Proof. unfold fill_total_amount. by intros ->. Qed.













Local Arguments sum_total_amount : simpl never.

Lemma sum_total_amount_cons t db :
  sum_total_amount (t :: db)
  = (default 0%Q (total_amount t) + sum_total_amount db)%Q.
Proof. reflexivity. Qed.

Lemma sum_by_type (f : Transaction -> bool) db :
  (sum_total_amount (List.filter f db)
   == sum_total_amount
        (List.filter
           (fun t => f t && bool_decide (transaction_type t = BUY)) db)
      + sum_total_amount
          (List.filter
             (fun t => f t && bool_decide (transaction_type t = SELL)) db)
      + sum_total_amount
          (List.filter
             (fun t => f t
                       && negb (bool_decide (transaction_type t = BUY))
                       && negb (bool_decide (transaction_type t = SELL)))
             db))%Q.
Proof.
  induction db as [|t db IH]; [reflexivity|].
  cbn [List.filter].
  destruct (f t); cbn [andb]; [|exact IH].
  destruct (transaction_type t);
    repeat (case_bool_decide; try discriminate; try congruence);
    cbn; rewrite ?sum_total_amount_cons, IH; ring.
Qed.

(** In the summary of a user, [total_volume] is [buy_volume] plus
    [sell_volume] plus the amounts of the completed transactions of the
    other types; it is [buy_volume + sell_volume] when there are none. *)
Theorem summary_total_by_type db (u : User) :
  (total_volume (summary db u).1
   == buy_volume (summary db u).1 + sell_volume (summary db u).1
      + sum_total_amount (List.filter (completed_other u) db))%Q
  /\ ((forall t, In t db -> completed_of u t = true ->
         transaction_type t = BUY \/ transaction_type t = SELL) ->
      (total_volume (summary db u).1
       == buy_volume (summary db u).1 + sell_volume (summary db u).1)%Q).
Proof.
  assert ((total_volume (summary db u).1
           == buy_volume (summary db u).1 + sell_volume (summary db u).1
              + sum_total_amount (List.filter (completed_other u) db))%Q)
    as Hsplit.
  { unfold summary.
    cbn [fst total_volume buy_volume sell_volume].
    rewrite !filter_filter_andb, !or_zero_sql_sum.
    apply (sum_by_type (completed_of u)). }
  split; [exact Hsplit|].
  intros Honly. rewrite Hsplit.
  assert (List.filter (completed_other u) db = []) as ->.
  { clear Hsplit. induction db as [|t db IH]; [reflexivity|].
    cbn [List.filter]. rewrite IH by (intros; apply Honly; cbn; auto).
    unfold completed_other.
    destruct (completed_of u t) eqn:Ec; [|reflexivity].
    destruct (Honly t (or_introl eq_refl) Ec) as [-> | ->]; reflexivity. }
  change (sum_total_amount []) with 0%Q.
  generalize (buy_volume (summary db u).1) (sell_volume (summary db u).1).
  intros b s. unfold Decimal in *. ring.
Qed.

Lemma filter_map_commute (p : Transaction -> bool)
    (f : Transaction -> Transaction) db :
  (forall t, p (f t) = p t) ->
  List.filter p (map f db) = map f (List.filter p db).
Proof.
  intros Hp. induction db as [|t db IH]; [reflexivity|].
  cbn. rewrite Hp. destruct (p t); cbn; by rewrite IH.
Qed.

Lemma sql_sum_map (f : Transaction -> Transaction) db :
  (forall t, total_amount (f t) = total_amount t) ->
  sql_sum total_amount (map f db) = sql_sum total_amount db.
Proof.
  intros Hf. unfold sql_sum. generalize (@None Q) as acc.
  induction db as [|t db IH]; intros acc; [reflexivity|].
  cbn. rewrite Hf. apply IH.
Qed.

Lemma flag_rows_fields (pk : uuid) (v : bool) (r : Transaction) :
  id (flag_rows pk v r) = id r
  /\ asset (flag_rows pk v r) = asset r
  /\ status (flag_rows pk v r) = status r
  /\ total_amount (flag_rows pk v r) = total_amount r
  /\ user (flag_rows pk v r) = user r.
Proof. unfold flag_rows. destruct (N.eqb (id r) pk); done. Qed.

Lemma save_is_active_ok db self s db' :
  save_is_active db self = Ok (s, db') ->
  db' = map (flag_rows (id self) (is_active self)) db
  /\ s = fill_total_amount self
  /\ exists r, In r db /\ id r = id self.
Proof.
  unfold save_is_active.
  destruct (fill_total_amount_fields self) as (_ & _ & _ & _ & _ & _ & _
    & _ & _ & Hid).
  rewrite Hid.
  destruct (existsb _ db) eqn:Ex; [|discriminate].
  intros [= <- <-]. split; [|split; [reflexivity|]].
  - apply map_ext. intros r. unfold flag_rows.
    destruct (N.eqb (id r) (id self)); [|reflexivity].
    f_equal. unfold fill_total_amount.
    by destruct (negb (truthy (total_amount self))).
  - apply existsb_exists in Ex as (r & Hr & Heq).
    apply N.eqb_eq in Heq. eauto.
Qed.


Lemma save_is_active_found db self (r : Transaction) :
  In r db -> id r = id self ->
  save_is_active db self
  = Ok (fill_total_amount self,
        map (flag_rows (id self) (is_active self)) db).
Proof.
  intros Hr Hid. unfold save_is_active.
  destruct (fill_total_amount_fields self) as (_ & _ & _ & _ & _ & _ & _
    & _ & _ & Hfid).
  rewrite Hfid.
  assert (existsb (fun r => N.eqb (id r) (id self)) db = true) as ->.
  { apply existsb_exists. exists r. split; [exact Hr|]. by apply N.eqb_eq. }
  do 2 f_equal. apply map_ext. intros r'. unfold flag_rows.
  destruct (N.eqb (id r') (id self)); [|reflexivity].
  f_equal. unfold fill_total_amount.
  by destruct (negb (truthy (total_amount self))).
Qed.

Lemma get_queryset_In (date_of : Z -> Z) db (who : Requester)
    (params : QueryParams) t :
  In t (get_queryset date_of db who params) ->
  In t db /\ is_active t = true
  /\ (is_staff (account who) = false -> user t = user_id (account who)).
Proof.
  unfold get_queryset.
  destruct (is_authenticated who); cbn [negb]; [|intros []].
  destruct (qp_date_to params), (qp_date_from params),
    (is_staff (account who)) eqn:Es, (qp_user params); cbn [negb];
    intros H; repeat (apply filter_In in H as [H ?]);
    (split; [exact H | split; [assumption|]]);
    try discriminate; intros _; by apply N.eqb_eq.
Qed.

(** A soft-deleted transaction disappears from every queryset of
    [TransactionViewSet], while [Asset.get_total_volume] and
    [Asset.get_transaction_count] still count it: the two do not look at
    [is_active]. *)
Theorem soft_delete_hides_row_keeps_volume db self s db' :
  soft_delete db self = Ok (s, db') ->
  (forall (date_of : Z -> Z) (who : Requester) (params : QueryParams) t,
     In t (get_queryset date_of db' who params) -> id t <> id self)
  /\ (forall asset_id : uuid,
        get_total_volume db' asset_id = get_total_volume db asset_id
        /\ get_transaction_count db' asset_id
           = get_transaction_count db asset_id)
  /\ length db' = length db.
Proof.
  unfold soft_delete. intros H.
  apply save_is_active_ok in H as (-> & _ & _).
  change (id (set_is_active false self)) with (id self).
  change (is_active (set_is_active false self)) with false.
  split; [|split].
  - intros date_of who params t Ht.
    apply get_queryset_In in Ht as (Hin & Hact & _).
    apply in_map_iff in Hin as (r & <- & _).
    unfold flag_rows in *.
    destruct (N.eqb (id r) (id self)) eqn:E; [discriminate Hact|].
    by apply N.eqb_neq.
  - intros asset_id. unfold get_total_volume, get_transaction_count.
    rewrite !(filter_map_commute _ (flag_rows (id self) false)).
    + rewrite sql_sum_map, length_map; [done|].
      intros t. apply flag_rows_fields.
    + intros t. unfold has_status.
      by destruct (flag_rows_fields (id self) false t) as (_ & _ & -> & _).
    + intros t.
      by destruct (flag_rows_fields (id self) false t) as (_ & -> & _).
  - apply length_map.
Qed.

(** [restore] after [soft_delete] gives back the table, when the rows of
    the key were active; both calls succeed when the table has a row of
    the key. *)
Theorem restore_undoes_soft_delete db self (r : Transaction) :
  In r db -> id r = id self ->
  (forall r', In r' db -> id r' = id self -> is_active r' = true) ->
  exists s1 db1 s2,
    soft_delete db self = Ok (s1, db1)
    /\ restore db1 s1 = Ok (s2, db)
    /\ is_active s1 = false /\ is_active s2 = true.
Proof.
  intros Hr Hid Hact. unfold soft_delete, restore.
  rewrite (save_is_active_found db (set_is_active false self) r Hr Hid).
  do 3 eexists. split; [reflexivity|].
  set (s1 := fill_total_amount (set_is_active false self)).
  assert (id s1 = id self) as Hs1.
  { subst s1.
    by destruct (fill_total_amount_fields (set_is_active false self))
      as (_ & _ & _ & _ & _ & _ & _ & _ & _ & ->). }
  assert (is_active s1 = false) as Hs1a.
  { subst s1. unfold fill_total_amount.
    by destruct (negb (truthy _)). }
  rewrite (save_is_active_found _ (set_is_active true s1)
             (flag_rows (id self) false r)).
  - split; [|split; [exact Hs1a|]].
    + do 2 f_equal. rewrite map_map.
      change (id (set_is_active true s1)) with (id s1). rewrite Hs1.
      change (id (set_is_active false self)) with (id self).
      rewrite <- (map_id db) at 2. apply map_ext_in.
      intros r' Hr'. unfold flag_rows. cbn.
      destruct (N.eqb (id r') (id self)) eqn:E; cbn; rewrite E;
        [|reflexivity].
      apply N.eqb_eq in E. specialize (Hact r' Hr' E).
      destruct r'; cbn in *. by subst.
    + unfold fill_total_amount. by destruct (negb (truthy _)).
  - apply in_map_iff. exists r. split; [reflexivity | exact Hr].
  - destruct (flag_rows_fields (id self) false r) as (-> & _).
    change (id (set_is_active true s1)) with (id s1). congruence.
Qed.

Lemma update_is_valid_ok (request_user : option User) now
    (d v : UpdateData) :
  update_is_valid request_user now d = Ok v ->
  v = match ud_user_id d, request_user with
      | None, Some u => set_ud_user_id (Some (user_id u)) d
      | _, _ => d
      end.
Proof.
  unfold update_is_valid, update_validate.
  destruct (update_field_errors d); [|discriminate].
  repeat (match goal with
          | |- context [if ?c then _ else _] => destruct c
          | |- context [match ud_transaction_date ?x with _ => _ end] =>
              destruct (ud_transaction_date x)
          end; try discriminate);
    by intros [= <-].
Qed.

(** An update through [TransactionDetailSerializer] whose body names no
    [user_id] makes the user of the request the owner of the
    transaction, whoever owned it. *)
Theorem update_assigns_requesting_user (u : User) now db
    (instance : Transaction) (d v : UpdateData) :
  ud_user_id d = None ->
  update_is_valid (Some u) now d = Ok v ->
  exists t db',
    serializer_update None db instance now v = Ok (t, db')
    /\ In t db' /\ id t = id instance /\ user t = user_id u.
Proof.
  intros Hnone Hv. apply update_is_valid_ok in Hv. rewrite Hnone in Hv.
  subst v. unfold serializer_update, save.
  do 2 eexists. split; [reflexivity|].
  split; [apply In_upsert|].
  destruct (fill_total_amount_fields
              (assign_validated instance now
                 (set_ud_user_id (Some (user_id u)) d)))
    as (_ & _ & _ & _ & _ & _ & -> & _ & _ & ->).
  split; reflexivity.
Qed.

(** An update never recomputes a total that is set and not zero: the row
    keeps the old [total_amount] whatever quantity, price, fees or tax the
    update assigns. *)
Theorem update_keeps_total_amount (fault : option exn) db
    (instance : Transaction) now (v : UpdateData) t db' :
  truthy (total_amount instance) = true ->
  serializer_update fault db instance now v = Ok (t, db') ->
  total_amount t = total_amount instance
  /\ quantity t = default (quantity instance) (ud_quantity v)
  /\ price_per_unit t
     = default (price_per_unit instance) (ud_price_per_unit v)
  /\ fees t = default (fees instance) (ud_fees v)
  /\ tax t = default (tax instance) (ud_tax v).
Proof.
  intros Htot [-> _]%save_ok.
  rewrite fill_total_amount_truthy by exact Htot. repeat split.
Qed.

(** Validation of an update reads the order type of the request, MARKET
    when it names none, not the one of the instance: an update that sets
    [limit_price] to null and names no order type is valid, and a LIMIT
    order is then stored without a limit price. *)
Theorem update_can_drop_limit_price (request_user : option User) now db
    (instance : Transaction) (d : UpdateData) :
  ud_order_type d = None ->
  ud_limit_price d = Some None ->
  ud_transaction_date d = None ->
  update_field_errors d = [] ->
  exists v t db',
    update_is_valid request_user now d = Ok v
    /\ serializer_update None db instance now v = Ok (t, db')
    /\ In t db'
    /\ order_type t = order_type instance
    /\ limit_price t = None.
Proof.
  intros Ho Hl Hd He.
  assert (exists v, update_is_valid request_user now d = Ok v) as [v Hv].
  { unfold update_is_valid, update_validate. rewrite He.
    destruct (ud_user_id d), request_user; cbn; rewrite Ho, Hd; cbn; eauto. }
  exists v. pose proof (update_is_valid_ok _ _ _ _ Hv) as Hform.
  unfold serializer_update, save. do 2 eexists.
  split; [exact Hv|]. split; [reflexivity|]. split; [apply In_upsert|].
  destruct (fill_total_amount_fields (assign_validated instance now v))
    as (_ & _ & _ & _ & _ & _ & _ & -> & -> & _).
  subst v. destruct (ud_user_id d), request_user; cbn; rewrite Ho, Hl; done.
Qed.

(** [get_object] of [TransactionViewSet] returns only active rows, and to
    a user who is not staff only rows of that user: for a row of another
    user it raises the 404 error even when the user is a superuser, whom
    the permission class would let through. *)
Theorem get_object_shows_own_rows (date_of : Z -> Z) db (who : Requester)
    (params : QueryParams) (pk : uuid) :
  (forall t,
     get_object date_of db who params pk = Ok t ->
     In t db /\ id t = pk /\ is_active t = true
     /\ (is_staff (account who) = false ->
         user t = user_id (account who)))
  /\ (is_staff (account who) = false ->
      (forall t, In t db -> id t = pk ->
                 user t <> user_id (account who)) ->
      get_object date_of db who params pk
      = Raise (mk_exn Http404 "No Transaction matches the given query.")).
Proof.
  unfold get_object. split.
  - intros t.
    destruct (find _ _) as [obj|] eqn:Hf; [|discriminate].
    apply find_some in Hf as [Hin Hid].
    apply get_queryset_In in Hin as (Hin & Hact & Hown).
    destruct (has_object_permission who obj); [|discriminate].
    intros [= <-]. apply N.eqb_eq in Hid. auto.
  - intros Hstaff Hother.
    destruct (find _ _) as [obj|] eqn:Hf; [|reflexivity].
    apply find_some in Hf as [Hin Hid].
    apply get_queryset_In in Hin as (Hin & _ & Hown).
    apply N.eqb_eq in Hid.
    destruct (Hother obj Hin Hid (Hown Hstaff)).
Qed.

End AccountingFacts.

(** ** The price endpoint and the symbols of assets *)

Section AssetViewFacts.
Import Assets AssetViews.

Implicit Types (db : gmap N Asset) (a : Asset) (now : Z).


Lemma get_object_missing db (min_price max_price : request_decimal)
    (pk : uuid) :
  db !! pk = None \/ (exists a, db !! pk = Some a /\ is_active a = false) ->
  exists e, get_object db min_price max_price pk = Raise e.
Proof.
  intros H. unfold get_object, get_queryset.
  destruct min_price, max_price; cbn; eauto;
    destruct H as [-> | (a & -> & Hact)]; eauto; rewrite Hact; cbn; eauto.
Qed.


(** For an asset that does not exist or is inactive,
    [AssetViewSet.update_price] answers 500, not 404: the 404 error of
    [get_object] is raised inside the [try] block. The same holds for a
    price on which [Decimal] raises. *)
Theorem update_price_view_500 db (min_price max_price : request_decimal)
    (pk : uuid) (price : request_decimal) (update_high_low : bool) now :
  (db !! pk = None \/ (exists a, db !! pk = Some a /\ is_active a = false)
   \/ (exists raw a,
         price = decimal_unparsable raw
         /\ get_object db min_price max_price pk = Ok a)) ->
  exists logs,
    update_price_view db min_price max_price pk price update_high_low now
    = (PriceError HTTP_500_INTERNAL_SERVER_ERROR "Failed to update price",
       logs, db).
Proof.
  unfold update_price_view.
  intros [H|[H|(raw & a & -> & ->)]]; [| |cbn; eauto].
  - destruct (get_object_missing db min_price max_price pk (or_introl H))
      as [e ->]. cbn. eauto.
  - destruct (get_object_missing db min_price max_price pk (or_intror H))
      as [e ->]. cbn. eauto.
Qed.


Section SymbolFacts.
Variables (upper strip : string -> string).

Lemma symbol_exists_false db (exclude : option uuid) (value : string) :
  symbol_exists db exclude value = false <->
  forall pk row, db !! pk = Some row -> symbol row = value ->
                 exclude = Some (id row).
Proof.
  unfold symbol_exists. rewrite bool_decide_eq_false. split.
  - intros Hn pk row Hrow Hs.
    destruct (decide (exclude = Some (id row))) as [|Hne]; [done|].
    destruct Hn. exists pk, row. done.
  - intros H (pk & row & Hrow & Hs & Hne). by apply Hne, (H pk).
Qed.

(** The symbol that [AssetCreateSerializer.validate_symbol] returns is
    the stripped upper-case input, and no asset of the table has it. *)
Theorem create_symbol_is_free db (value s : string) :
  create_validate_symbol upper strip db value = Ok s ->
  s = strip (upper value)
  /\ forall pk row, db !! pk = Some row -> symbol row <> s.
Proof.
  unfold create_validate_symbol.
  destruct (symbol_exists db None (strip (upper value))) eqn:E;
    [discriminate|].
  intros [= <-]. split; [reflexivity|].
  intros pk row Hrow Hs.
  by pose proof (proj1 (symbol_exists_false _ _ _) E pk row Hrow Hs).
Qed.

(** [AssetDetailSerializer.validate_symbol] checks the symbol as it was
    typed and returns it in upper case: when no other asset has the typed
    symbol but another asset has its upper-case form, it accepts and
    returns a symbol that is already taken. *)
Theorem detail_symbol_can_be_taken db (instance : Asset)
    (value : string) (pk : uuid) (other : Asset) :
  (forall pk' row, db !! pk' = Some row -> symbol row = value ->
                   id row = id instance) ->
  db !! pk = Some other -> id other <> id instance ->
  symbol other = upper value ->
  detail_validate_symbol upper db (Some instance) value
  = Ok (symbol other).
Proof.
  intros Hfree Hother Hne Hsym. unfold detail_validate_symbol.
  cbn [option_map].
  rewrite (proj2 (symbol_exists_false db (Some (id instance)) value)).
  - by rewrite Hsym.
  - intros pk' row Hrow Hs. f_equal. symmetry. by eapply Hfree.
Qed.

End SymbolFacts.

End AssetViewFacts.

(** ** Category paths and parent cycles *)

Section CategoryPathFacts.
Import Category CategoryPaths.

Implicit Types (db : gmap N AssetCategory) (self : AssetCategory).

Lemma string_app_assoc (a b c : string) : (a ++ b) ++ c = a ++ (b ++ c).
Proof.
  induction a as [|x a IH]; [reflexivity|].
  change (String x ((a ++ b) ++ c) = String x (a ++ b ++ c)).
  by rewrite IH.
Qed.

Lemma concat_snoc (sep : string) (l : list string) (x y : string) :
  String.concat sep ((y :: l) ++ [x])%list
  = String.concat sep (y :: l) ++ sep ++ x.
Proof.
  revert y. induction l as [|z l IH]; intros y; [reflexivity|].
  change (String.concat sep ((y :: z :: l) ++ [x])%list)
    with (y ++ sep ++ String.concat sep ((z :: l) ++ [x])%list).
  rewrite IH.
  change (String.concat sep (y :: z :: l))
    with (y ++ sep ++ String.concat sep (z :: l)).
  by rewrite !string_app_assoc.
Qed.

(** For a category whose ancestors end in a category without parent,
    [get_full_path] returns the names from the root down to the category,
    joined by " > ", once the recursion may be as deep as the chain. *)
Theorem full_path_of_chain db self (ancestors : list AssetCategory)
    (fuel : nat) :
  is_chain db self ancestors ->
  (length ancestors < fuel)%nat ->
  get_full_path fuel db self
  = Some (Ok (String.concat " > " (rev (map name (self :: ancestors))))).
Proof.
  revert self fuel.
  induction ancestors as [|p rest IH]; intros self fuel Hchain Hfuel.
  - destruct fuel as [|fuel]; [cbn in Hfuel; lia|].
    cbn in *. by rewrite Hchain.
  - destruct fuel as [|fuel]; [cbn in Hfuel; lia|].
    destruct Hchain as (Hp & Hrow & Hrest).
    cbn [get_full_path]. rewrite Hp, Hrow.
    rewrite (IH p fuel Hrest) by (cbn in Hfuel; lia).
    do 2 f_equal.
    change (rev (map name (self :: p :: rest)))
      with (rev (map name (p :: rest)) ++ [name self])%list.
    destruct (rev (map name (p :: rest))) as [|y l] eqn:E.
    + apply (f_equal (@length string)) in E.
      rewrite length_rev, length_map in E. discriminate E.
    + by rewrite concat_snoc.
Qed.

(** On categories that are each other's ancestors [get_full_path] does
    not return, however deep the recursion may go. *)
Theorem full_path_of_cycle db (ids : gset N) self (p : uuid)
    (fuel : nat) :
  closed_under_parent db ids ->
  parent self = Some p -> p ∈ ids ->
  get_full_path fuel db self = None.
Proof.
  intros Hclosed. revert self p.
  induction fuel as [|fuel IH]; intros self p Hp Hin; [reflexivity|].
  cbn [get_full_path]. rewrite Hp.
  destruct (Hclosed p Hin) as (row & q & -> & Hq & Hqin).
  by rewrite (IH row q Hq Hqin).
Qed.


End CategoryPathFacts.

(** ** The analytics helpers *)

Section UtilsFacts.
Import Utils.

(** Whatever the database holds, [get_asset_type_performance] returns
    the empty list and [get_market_overview] the empty object: both name
    [Min], which [assets/utils.py] does not import, and the [NameError]
    is caught by their own handler.  A helper whose names are all bound
    returns the rows of its query. *)
Theorem helpers_with_unbound_names :
  (forall query : result (list json),
     get_asset_type_performance query
     = ([], [(ERROR, "Error in get_asset_type_performance: "
                     ++ "name 'Min' is not defined")]))
  /\ (forall queries : result json,
        get_market_overview queries
        = (JObj [], [(ERROR, "Error in get_market_overview: "
                             ++ "name 'Min' is not defined")]))
  /\ (forall rows : list json,
        get_top_assets_by_volume (Ok rows) = (rows, [])).
Proof. split; [|split]; intros; reflexivity. Qed.

Section GrowthFacts.
Variables (float : Type) (percent : Z -> Z -> float).

Local Abbreviation loop := (growth_loop float percent).



End GrowthFacts.

End UtilsFacts.

(** ** Request logging *)

Section RequestLoggingFacts.
Import RequestLogging.

Implicit Types (request : HttpRequest) (now : Q).

Lemma safe_items_spec (items : list (string * json)) (kv : string * json) :
  In kv (safe_items items) <-> In kv items /\ ~ In kv.1 sensitive_keys.
Proof.
  unfold safe_items. rewrite filter_In, negb_true_iff, bool_decide_eq_false.
  by rewrite list_elem_of_In.
Qed.

(** The body that [RequestLoggingMiddleware] logs never has one of the
    keys password, token, otp_code, verification_code and
    confirm_password: it consists of the other items of the JSON object
    of the request, and is logged only for paths that contain none of
    /auth/, /login/ and /signup/. *)
Theorem logged_body_is_redacted now (new_id : string) request
    (request' : HttpRequest) (logs : list access_log) (rid : string)
    (logged : list (string * json)) :
  process_request now new_id request = Ok (request', logs) ->
  In (LogBody rid logged) logs ->
  (forall k, In k sensitive_keys -> ~ In k (map fst logged))
  /\ (exists items,
        body request = body_object items
        /\ forall kv, In kv logged
                      <-> In kv items /\ ~ In kv.1 sensitive_keys)
  /\ on_sensitive_path (path request) = false.
Proof.
  unfold process_request.
  destruct (String.prefix "/admin/" (path request)
            || String.prefix "/static/" (path request));
    [intros [= _ <-] []|].
  cbn [path body method].
  destruct (on_sensitive_path (path request)) eqn:Es.
  { intros [= _ <-] [H|[]]. discriminate H. }
  destruct (body request) as [|items|v|] eqn:Eb.
  - intros [= _ <-] [H|[]]. discriminate H.
  - destruct (safe_items items) as [|kv l] eqn:Esafe.
    + intros [= _ <-] [H|[]]. discriminate H.
    + intros [= _ <-] [H|[H|[]]]; [discriminate H|].
      injection H as _ <-. rewrite <- Esafe. split; [|split].
      * intros k Hk (kv' & <- & Hin)%in_map_iff.
        apply safe_items_spec in Hin as [_ Hn]. contradiction.
      * exists items. split; [reflexivity|]. apply safe_items_spec.
      * reflexivity.
  - discriminate.
  - intros [= _ <-] [H|[H|[]]]; discriminate H.
Qed.

(** A request under /admin/ or /static/ is not logged at all, neither
    when it arrives nor when its response leaves; every other request
    that [process_request] lets through is logged first with its id,
    method and path, and its response gives exactly one record, with the
    same id. *)
Theorem request_and_response_records now (new_id : string) request
    (request' : HttpRequest) (logs : list access_log) (finished : Q)
    (status : Z) :
  start_time request = None -> request_id request = None ->
  process_request now new_id request = Ok (request', logs) ->
  if String.prefix "/admin/" (path request)
     || String.prefix "/static/" (path request)
  then logs = [] /\ process_response finished request' status = []
  else
    (exists more,
       logs = LogRequest new_id (method request) (path request) :: more)
    /\ process_response finished request' status
       = [LogResponse new_id status now finished].
Proof.
  intros Hst Hid. unfold process_request.
  destruct (String.prefix "/admin/" (path request)
            || String.prefix "/static/" (path request)).
  - intros [= <- <-]. split; [reflexivity|].
    unfold process_response. by rewrite Hst.
  - cbn [path body method].
    destruct (on_sensitive_path (path request));
      [|destruct (body request) as [|items|v|];
        [|destruct (safe_items items)| |]];
      try discriminate; intros [= <- <-]; split; eauto.
Qed.

(** A body that is valid JSON but not an object makes
    [process_request] raise: [items] is called on it, and the handler
    catches the two decoding errors only. *)
Theorem non_object_body_raises now (new_id : string) request (v : json) :
  String.prefix "/admin/" (path request) = false ->
  String.prefix "/static/" (path request) = false ->
  on_sensitive_path (path request) = false ->
  body request = body_other_json v ->
  process_request now new_id request = Raise no_items.
Proof.
  intros Ha Hs Hp Hb. unfold process_request.
  rewrite Ha, Hs. cbn [orb path body]. by rewrite Hp, Hb.
Qed.

End RequestLoggingFacts.

(** ** The properties above at concrete inputs *)

Section AccountingExamples.
Import Transactions Accounting.




Lemma summary_total_by_type_witness :
  (total_volume (summary Samples.ledger Samples.alice).1
   == buy_volume (summary Samples.ledger Samples.alice).1
      + sell_volume (summary Samples.ledger Samples.alice).1)%Q.
Proof.
  apply (proj2 (summary_total_by_type Samples.ledger Samples.alice)).
  intros t [<-|[<-|[<-|[]]]] _; cbn; auto.
Defined.

Lemma soft_delete_hides_row_keeps_volume_witness :
  exists s db',
    soft_delete Samples.ledger MoreSamples.first_row = Ok (s, db')
    /\ get_total_volume db' 7 = get_total_volume Samples.ledger 7
    /\ length db' = length Samples.ledger.
Proof.
  destruct (soft_delete Samples.ledger MoreSamples.first_row)
    as [[s db']|e] eqn:H; [|vm_compute in H; discriminate H].
  exists s, db'. split; [reflexivity|].
  destruct (soft_delete_hides_row_keeps_volume Samples.ledger
              MoreSamples.first_row s db' H) as (_ & Hvol & Hlen).
  split; [apply Hvol | exact Hlen].
Defined.

Lemma restore_undoes_soft_delete_witness :
  exists s1 db1 s2,
    soft_delete Samples.ledger MoreSamples.first_row = Ok (s1, db1)
    /\ restore db1 s1 = Ok (s2, Samples.ledger).
Proof.
  destruct (restore_undoes_soft_delete Samples.ledger MoreSamples.first_row
              MoreSamples.first_row) as (s1 & db1 & s2 & H1 & H2 & _).
  - left. reflexivity.
  - reflexivity.
  - intros r [<-|[<-|[<-|[]]]] _; reflexivity.
  - exists s1, db1, s2. split; [exact H1 | exact H2].
Defined.

Lemma update_assigns_requesting_user_witness :
  exists t db',
    serializer_update None Samples.ledger
      (Samples.completed 12 2 BUY 500%Q) 200
      (set_ud_user_id (Some 1%N) MoreSamples.new_quantity)
    = Ok (t, db')
    /\ user t = user_id Samples.alice.
Proof.
  destruct (update_assigns_requesting_user Samples.alice 200 Samples.ledger
              (Samples.completed 12 2 BUY 500%Q) MoreSamples.new_quantity
              (set_ud_user_id (Some 1%N) MoreSamples.new_quantity)
              eq_refl eq_refl) as (t & db' & H & _ & _ & Hu).
  exists t, db'. split; [exact H | exact Hu].
Defined.

Lemma update_keeps_total_amount_witness :
  exists t db',
    serializer_update None Samples.ledger MoreSamples.first_row 200
      MoreSamples.new_quantity
    = Ok (t, db')
    /\ total_amount t = Some 30%Q /\ quantity t = 5%Q.
Proof.
  destruct (serializer_update None Samples.ledger MoreSamples.first_row 200
              MoreSamples.new_quantity)
    as [[t db']|e] eqn:H; [|vm_compute in H; discriminate H].
  exists t, db'. split; [reflexivity|].
  destruct (update_keeps_total_amount None Samples.ledger
              MoreSamples.first_row 200 MoreSamples.new_quantity t db'
              eq_refl H) as (Ht & Hq & _).
  split; [exact Ht | exact Hq].
Defined.

Lemma update_can_drop_limit_price_witness :
  exists v t db',
    update_is_valid (Some Samples.alice) 200 MoreSamples.null_limit_price
    = Ok v
    /\ serializer_update None [] Samples.limit_order 200 v = Ok (t, db')
    /\ order_type t = LIMIT /\ limit_price t = None.
Proof.
  destruct (update_can_drop_limit_price (Some Samples.alice) 200 []
              Samples.limit_order MoreSamples.null_limit_price
              eq_refl eq_refl eq_refl eq_refl)
    as (v & t & db' & Hv & Hs & _ & Ho & Hl).
  exists v, t, db'. split; [exact Hv|]. split; [exact Hs|].
  split; [exact Ho | exact Hl].
Defined.

Lemma get_object_shows_own_rows_witness :
  get_object (fun t => t) Samples.ledger MoreSamples.root_request
    MoreSamples.no_params 12
  = Raise (mk_exn Http404 "No Transaction matches the given query.")
  /\ forall t,
       get_object (fun t => t) Samples.ledger MoreSamples.alice_request
         MoreSamples.no_params 10 = Ok t ->
       user t = 1%N.
Proof.
  split.
  - apply (proj2 (get_object_shows_own_rows (fun t => t) Samples.ledger
                    MoreSamples.root_request MoreSamples.no_params 12)).
    + reflexivity.
    + intros t [<-|[<-|[<-|[]]]] _; discriminate.
  - intros t Ht.
    destruct (proj1 (get_object_shows_own_rows (fun t => t) Samples.ledger
                       MoreSamples.alice_request MoreSamples.no_params 10)
                t Ht) as (_ & _ & _ & Hown).
    apply Hown. reflexivity.
Defined.

End AccountingExamples.

Section AssetViewExamples.
Import Assets AssetViews.


Lemma update_price_view_500_witness :
  Samples.asset_table !! 99%N = None
  /\ exists logs,
       update_price_view Samples.asset_table decimal_falsy decimal_falsy
         99 (decimal_value 13%Q) true 5
       = (PriceError HTTP_500_INTERNAL_SERVER_ERROR
            "Failed to update price", logs, Samples.asset_table).
Proof.
  assert (Samples.asset_table !! 99%N = None) as H
    by (vm_compute; reflexivity).
  split; [exact H|].
  apply update_price_view_500. left. exact H.
Defined.


Lemma create_symbol_is_free_witness :
  create_validate_symbol MoreSamples.upper_ascii (fun s => s)
    Samples.asset_table "beta" = Ok "BETA"
  /\ forall pk row,
       Samples.asset_table !! pk = Some row -> symbol row <> "BETA".
Proof.
  assert (create_validate_symbol MoreSamples.upper_ascii (fun s => s)
            Samples.asset_table "beta" = Ok "BETA") as H
    by (vm_compute; reflexivity).
  split; [exact H|].
  apply (create_symbol_is_free MoreSamples.upper_ascii (fun s => s)
           Samples.asset_table "beta" "BETA" H).
Defined.

Lemma detail_symbol_can_be_taken_witness :
  detail_validate_symbol MoreSamples.upper_ascii Samples.asset_table
    (Some MoreSamples.beta_asset) "acme"
  = Ok (symbol Samples.acme).
Proof.
  apply (detail_symbol_can_be_taken MoreSamples.upper_ascii
           Samples.asset_table MoreSamples.beta_asset "acme" 7
           Samples.acme).
  - intros pk' row Hrow Hs.
    unfold Samples.asset_table in Hrow.
    apply lookup_singleton_Some in Hrow as [_ <-]. discriminate Hs.
  - vm_compute. reflexivity.
  - discriminate.
  - reflexivity.
Defined.

End AssetViewExamples.

Section CategoryPathExamples.
Import Category CategoryPaths.

Lemma full_path_of_chain_witness :
  get_full_path 2 MoreSamples.category_table MoreSamples.child_category
  = Some (Ok "Stocks > Tech").
Proof.
  apply (full_path_of_chain MoreSamples.category_table
           MoreSamples.child_category [MoreSamples.root_category] 2).
  - split; [reflexivity|]. split; [vm_compute; reflexivity | reflexivity].
  - cbn. lia.
Defined.

Lemma looped_table_closed :
  closed_under_parent MoreSamples.looped_table {[1%N; 2%N]}.
Proof.
  intros pk Hpk.
  apply elem_of_union in Hpk as [Hpk|Hpk]; apply elem_of_singleton in Hpk;
    subst pk.
  - exists MoreSamples.child_category, 2%N.
    split; [vm_compute; reflexivity|]. split; [reflexivity|].
    apply elem_of_union. right. by apply elem_of_singleton.
  - exists MoreSamples.looped_root, 1%N.
    split; [vm_compute; reflexivity|]. split; [reflexivity|].
    apply elem_of_union. left. by apply elem_of_singleton.
Defined.

Lemma full_path_of_cycle_witness :
  get_full_path 1000 MoreSamples.looped_table MoreSamples.child_category
  = None.
Proof.
  apply (full_path_of_cycle MoreSamples.looped_table {[1%N; 2%N]}
           MoreSamples.child_category 2 1000 looped_table_closed).
  - reflexivity.
  - apply elem_of_union. right. by apply elem_of_singleton.
Defined.


End CategoryPathExamples.

Section UtilsExamples.
Import Utils.


End UtilsExamples.

Section RequestLoggingExamples.
Import RequestLogging.

Lemma logged_body_is_redacted_witness :
  exists request' logs,
    process_request 0%Q "1a2b3c4d" MoreSamples.signup
    = Ok (request', logs)
    /\ In (LogBody "1a2b3c4d" [("name", JStr "Acme")]) logs
    /\ ~ In "password" (map fst [("name", JStr "Acme")]).
Proof.
  assert (In (LogBody "1a2b3c4d" [("name", JStr "Acme")])
            [LogRequest "1a2b3c4d" "POST" "/api/assets/";
             LogBody "1a2b3c4d" [("name", JStr "Acme")]]) as Hin
    by (right; left; reflexivity).
  do 2 eexists. split; [vm_compute; reflexivity|]. split; [exact Hin|].
  apply (proj1 (logged_body_is_redacted 0%Q "1a2b3c4d" MoreSamples.signup
                  _ _ _ _ eq_refl Hin)).
  cbn. auto.
Defined.

Lemma request_and_response_records_witness :
  process_response 1%Q MoreSamples.admin_page 200 = []
  /\ exists request' logs,
       process_request 0%Q "1a2b3c4d" MoreSamples.signup
       = Ok (request', logs)
       /\ process_response 1%Q request' 200
          = [LogResponse "1a2b3c4d" 200 0%Q 1%Q].
Proof.
  split.
  - apply (request_and_response_records 0%Q "1a2b3c4d"
             MoreSamples.admin_page MoreSamples.admin_page [] 1%Q 200
             eq_refl eq_refl eq_refl).
  - do 2 eexists. split; [vm_compute; reflexivity|].
    apply (request_and_response_records 0%Q "1a2b3c4d" MoreSamples.signup
             _ _ 1%Q 200 eq_refl eq_refl eq_refl).
Defined.

Lemma non_object_body_raises_witness :
  process_request 0%Q "1a2b3c4d" MoreSamples.array_body = Raise no_items.
Proof.
  apply (non_object_body_raises 0%Q "1a2b3c4d" MoreSamples.array_body
           (JList [JInt 1; JInt 2])); reflexivity.
Defined.

End RequestLoggingExamples.

(** ** Reports *)

Section ReportFacts.
Import Reports.

Implicit Types (db : gmap N Report) (self row : Report).

(** [mark_completed] and [mark_failed] of a stored report return, and
    change only the row of the report: [mark_completed] writes the status
    COMPLETED and the time of completion and keeps the stored data;
    [mark_failed] writes the status FAILED and, as data, the error object
    when a message that is not empty is given, the data of the instance
    otherwise, and keeps the stored time of completion.  No other column
    changes, and [is_expired] gives what it gave before. *)
Theorem report_marks db self row (now : Z) (error_message : option string) :
  db !! id self = Some row ->
  (exists self' row',
     mark_completed db self now = Ok (self', <[id self := row']> db)
     /\ status row' = COMPLETED /\ completed_at row' = Some now
     /\ data row' = data row /\ same_except_marks row row'
     /\ is_expired self' now = is_expired self now)
  /\ (exists self' row',
        mark_failed db self error_message
        = Ok (self', <[id self := row']> db)
        /\ status row' = FAILED
        /\ completed_at row' = completed_at row
        /\ data row'
           = match error_message with
             | Some msg =>
                 if str_truthy msg then JObj [("error", JStr msg)]
                 else data self
             | None => data self
             end
        /\ same_except_marks row row'
        /\ is_expired self' now = is_expired self now).
Proof.
  intros Hrow. split.
  - unfold mark_completed, save_update_fields.
    change (id (set_completed_at (Some now) (set_status COMPLETED self)))
      with (id self).
    rewrite Hrow. cbn [bind]. do 2 eexists. split; [reflexivity|].
    destruct row. unfold same_except_marks. cbn.
    repeat split; reflexivity.
  - unfold mark_failed, save_update_fields.
    assert (forall r : Report,
              id (match error_message with
                  | Some msg =>
                      if str_truthy msg
                      then set_data (JObj [("error", JStr msg)]) r
                      else r
                  | None => r
                  end) = id r) as Hid.
    { intros r. destruct error_message as [msg|]; [|reflexivity].
      by destruct (str_truthy msg). }
    rewrite Hid. change (id (set_status FAILED self)) with (id self).
    rewrite Hrow. cbn [bind]. do 2 eexists. split; [reflexivity|].
    destruct row, error_message as [msg|];
      [destruct (str_truthy msg)| ];
      unfold same_except_marks; cbn; repeat split; reflexivity.
Qed.

Lemma report_marks_witness :
  exists self' row',
    mark_failed MoreSamples.report_table MoreSamples.draft_report
      (Some "timeout")
    = Ok (self', <[20%N := row']> MoreSamples.report_table)
    /\ status row' = FAILED
    /\ data row' = JObj [("error", JStr "timeout")].
Proof.
  destruct (report_marks MoreSamples.report_table MoreSamples.draft_report
              MoreSamples.draft_report 0 (Some "timeout"))
    as (_ & self' & row' & H & Hs & _ & Hd & _).
  - vm_compute. reflexivity.
  - exists self', row'. split; [exact H|]. split; [exact Hs | exact Hd].
Defined.

End ReportFacts.
